(** * Japanese Lyrics Alignment Service: a shallow embedding of [main.py]

    The development follows the source function by function.  Python values
    that come out of [json.load] are an inductive type [json]; Python floats
    are IEEE 754 binary64 values ([spec_float] with precision 53); exceptions
    are a datatype [exn]; pure code returns a [result]; code that touches the
    file system or spawns processes is written in a state monad [M] whose
    outcomes are a return value, a raised exception, or a computation that
    never returns.  What lies outside the source (the network, the process
    table, the interpreter's [float] parser and [json] decoder) is a record
    [Env] of oracles over which every theorem is quantified. *)

From Stdlib Require Import ZArith Strings.Ascii.
From Stdlib Require Import Floats.SpecFloat.
From stdpp Require Import gmap strings list fin_maps pretty.

Set Warnings "-register-all".

Open Scope Z_scope.
Open Scope string_scope.

(** ** Python values *)

(** A Python [str] is modelled as the [string] of its UTF-8 bytes; its
    characters (code points) are recovered by [chars_of] below. *)

(** Python [float]: binary64. *)
Abbreviation pyfloat := spec_float.

Definition float_prec : Z := 53.
Definition float_emax : Z := 1024.

Definition float_le (x y : pyfloat) : bool := SFleb x y.

Definition float_zero : pyfloat := S754_zero false.

(** Values produced by [json.load]: [None], [bool], [int], [float], [str],
    [list] and [dict] (whose keys are always [str] and distinct). *)
Inductive json :=
| JNull
| JBool (b : bool)
| JInt (z : Z)
| JFloat (f : pyfloat)
| JStr (s : string)
| JArr (l : list json)
| JObj (kvs : list (string * json)).

(** ** Exceptions and results *)

Inductive exc_kind :=
| TypeError | AttributeError | KeyError | IndexError | ValueError
| OverflowError | FileNotFoundError | OSError | ImportError | RuntimeError
| OtherException.

Inductive exn :=
| HTTPException (status_code : Z) (detail : string)
| CalledProcessError (returncode : Z) (stderr : string)
| TimeoutExpired (cmd : list string) (timeout : nat)
| PyExc (kind : exc_kind) (msg : string).

(** [str(e)] for the exceptions whose text the source interpolates. *)
Definition str_exn (e : exn) : string :=
  match e with
  | HTTPException c d => pretty c +:+ ": " +:+ d
  | CalledProcessError rc _ =>
      "Command returned non-zero exit status " +:+ pretty rc +:+ "."
  | TimeoutExpired _ t =>
      "Command timed out after " +:+ pretty t +:+ " seconds"
  | PyExc _ msg => msg
  end.

Inductive result (A : Type) :=
| Ok (a : A)
| Err (e : exn).
Arguments Ok {A} a.
Arguments Err {A} e.

Definition result_bind {A B} (m : result A) (k : A → result B) : result B :=
  match m with
  | Ok a => k a
  | Err e => Err e
  end.

Declare Scope py_scope.
Delimit Scope py_scope with py.
Notation "'let?' x ':=' m 'in' k" := (result_bind m (λ x, k))
  (at level 10, x pattern, m at level 100, k at level 200) : py_scope.
Open Scope py_scope.

(** ** Builtins on dynamically typed values *)

Definition type_name (v : json) : string :=
  match v with
  | JNull => "NoneType"
  | JBool _ => "bool"
  | JInt _ => "int"
  | JFloat _ => "float"
  | JStr _ => "str"
  | JArr _ => "list"
  | JObj _ => "dict"
  end.

(** [sub in s] on two [str]. *)
Fixpoint str_contains (sub s : string) : bool :=
  String.prefix sub s ||
  match s with
  | EmptyString => false
  | String _ s' => str_contains sub s'
  end.

(** [d.get(key)] on the association list of a [dict]. *)
Fixpoint dict_lookup (key : string) (kvs : list (string * json)) : option json :=
  match kvs with
  | [] => None
  | (k, v) :: rest => if String.eqb k key then Some v else dict_lookup key rest
  end.

Definition is_str (s : string) (v : json) : bool :=
  match v with
  | JStr s' => String.eqb s' s
  | _ => false
  end.

(** [key in v] where [key] is a [str]. *)
Definition py_in (key : string) (v : json) : result bool :=
  match v with
  | JObj kvs => Ok (bool_decide (is_Some (dict_lookup key kvs)))
  | JArr l => Ok (existsb (is_str key) l)
  | JStr s => Ok (str_contains key s)
  | _ => Err (PyExc TypeError
                ("argument of type '" +:+ type_name v +:+ "' is not iterable"))
  end.

(** [v[key]] where [key] is a [str]. *)
Definition py_getitem_str (v : json) (key : string) : result json :=
  match v with
  | JObj kvs =>
      match dict_lookup key kvs with
      | Some x => Ok x
      | None => Err (PyExc KeyError ("'" +:+ key +:+ "'"))
      end
  | JArr _ => Err (PyExc TypeError "list indices must be integers or slices, not str")
  | JStr _ => Err (PyExc TypeError "string indices must be integers, not 'str'")
  | _ => Err (PyExc TypeError
                ("'" +:+ type_name v +:+ "' object is not subscriptable"))
  end.

(** [v.get(key, default)]: only a [dict] has the method. *)
Definition py_get (v : json) (key : string) (dflt : json) : result json :=
  match v with
  | JObj kvs => Ok (default dflt (dict_lookup key kvs))
  | _ => Err (PyExc AttributeError
                ("'" +:+ type_name v +:+ "' object has no attribute 'get'"))
  end.

(** Is [c] a continuation byte (10xxxxxx) of a multi-byte character? *)
Definition is_continuation (c : ascii) : bool :=
  let n := nat_of_ascii c in ((128 <=? n) && (n <? 192))%nat.

(** Does [s] go on with a continuation byte? *)
Definition continues (s : string) : bool :=
  match s with
  | String d _ => is_continuation d
  | EmptyString => false
  end.

(** The characters of a [str], each as the string of its bytes: a
    character runs up to the next byte that is not a continuation byte. *)
Fixpoint chars_of (s : string) : list string :=
  match s with
  | EmptyString => []
  | String c s' =>
      match chars_of s' with
      | g :: gs => if continues s' then String c g :: gs else String c "" :: g :: gs
      | [] => [String c ""]
      end
  end.

(** [len(v)]. *)
Definition py_len (v : json) : result nat :=
  match v with
  | JArr l => Ok (length l)
  | JStr s => Ok (length (chars_of s))
  | JObj kvs => Ok (length kvs)
  | _ => Err (PyExc TypeError
                ("object of type '" +:+ type_name v +:+ "' has no len()"))
  end.

(** The one-character strings a [str] is made of. *)
Definition str_chars (s : string) : list json := JStr <$> chars_of s.

(** The items a [for] loop over [v] visits: the elements of a [list], the
    characters of a [str], the keys of a [dict]. *)
Definition py_iter (v : json) : result (list json) :=
  match v with
  | JArr l => Ok l
  | JStr s => Ok (str_chars s)
  | JObj kvs => Ok (map (λ kv, JStr kv.1) kvs)
  | _ => Err (PyExc TypeError
                ("'" +:+ type_name v +:+ "' object is not iterable"))
  end.

(** Truth value of [v], as tested by [if not v]. *)
Definition truthy (v : json) : bool :=
  match v with
  | JNull => false
  | JBool b => b
  | JInt z => negb (Z.eqb z 0)
  | JFloat (S754_zero _) => false
  | JFloat _ => true
  | JStr s => negb (String.eqb s "")
  | JArr l => negb (bool_decide (l = []))
  | JObj kvs => negb (bool_decide (kvs = []))
  end.

(** [v[0]] and [v[-1]].  A [dict] obtained from JSON has only [str] keys, so
    an [int] key is always missing. *)
Definition py_subscript_end (from_back : bool) (v : json) : result json :=
  match v with
  | JArr l =>
      match (if from_back then last l else head l) with
      | Some x => Ok x
      | None => Err (PyExc IndexError "list index out of range")
      end
  | JStr s =>
      match (if from_back then last (str_chars s) else head (str_chars s)) with
      | Some x => Ok x
      | None => Err (PyExc IndexError "string index out of range")
      end
  | JObj _ => Err (PyExc KeyError (if from_back then "-1" else "0"))
  | _ => Err (PyExc TypeError
                ("'" +:+ type_name v +:+ "' object is not subscriptable"))
  end.

(** [float(z)] for an [int]: rounding to nearest even; an [int] beyond the
    binary64 range raises. *)
Definition float_of_Z (z : Z) : result pyfloat :=
  match binary_normalize float_prec float_emax z 0 false with
  | S754_infinity _ => Err (PyExc OverflowError "int too large to convert to float")
  | f => Ok f
  end.

(** ** Effects

    The state a request can observe and change: the scratch files (path to
    content) and a log of the calls that leave the process. *)

Inductive event :=
| EvFetch (url path : string)
| EvSpawn (cmd : list string) (timeout : option nat)
| EvWrite (path : string)
| EvRemove (path : string)
| EvPrint (to_stderr : bool) (msg : string).

Record state := {
  st_files : gmap string string;
  st_log : list event
}.

Definition set_files (fs : gmap string string) (st : state) : state :=
  {| st_files := fs; st_log := st_log st |}.

Definition add_event (ev : event) (st : state) : state :=
  {| st_files := st_files st; st_log := st_log st ++ [ev] |}.

(** How a call ends: it returns, it raises, or it never comes back. *)
Inductive outcome (A : Type) :=
| Ret (a : A)
| Raise (e : exn)
| Hang.
Arguments Ret {A} a.
Arguments Raise {A} e.
Arguments Hang {A}.

Definition M (A : Type) : Type := state → outcome A * state.

Definition ret {A} (a : A) : M A := λ st, (Ret a, st).
Definition raise {A} (e : exn) : M A := λ st, (Raise e, st).

Definition bind {A B} (m : M A) (k : A → M B) : M B :=
  λ st,
    match m st with
    | (Ret a, st') => k a st'
    | (Raise e, st') => (Raise e, st')
    | (Hang, st') => (Hang, st')
    end.

Notation "'let!' x ':=' m 'in' k" := (bind m (λ x, k))
  (at level 10, x pattern, m at level 100, k at level 200) : py_scope.

Definition of_result {A} (r : result A) : M A :=
  match r with
  | Ok a => ret a
  | Err e => raise e
  end.

(** [try: body except Exception as e: handler e].  A handler that does not
    match re-raises. *)
Definition try_except {A} (body : M A) (handler : exn → M A) : M A :=
  λ st,
    match body st with
    | (Raise e, st') => handler e st'
    | r => r
    end.

(** [try: body finally: fin].  As in Python, an exception escaping [fin]
    replaces the outcome of [body]. *)
Definition try_finally {A} (body : M A) (fin : M unit) : M A :=
  λ st,
    match body st with
    | (Hang, st') => (Hang, st')
    | (o, st') =>
        match fin st' with
        | (Ret _, st'') => (o, st'')
        | (Raise e, st'') => (Raise e, st'')
        | (Hang, st'') => (Hang, st'')
        end
    end.

(** ** The environment

    Everything the source calls but does not define. *)

Record CompletedProcess := {
  returncode : Z;
  stdout : string;
  stderr : string
}.

(** A started child process: how long it runs before exiting on its own
    ([None]: it never does), what it reports on exit, and the files it leaves
    behind. *)
Record process := {
  duration : option nat;
  completed : CompletedProcess;
  files_after : gmap string string
}.

Inductive spawn_result :=
| SpawnNotFound (msg : string)
| SpawnOSError (msg : string)
| Spawned (p : process).

Inductive fetch_result :=
| FetchFailed (msg : string) (partial : option string)
| FetchStalls (partial : option string)
| Fetched (content : string).

Record Env := {
  (** [float(s)] for a [str]; [None] is [ValueError]. *)
  float_of_str : string → option pyfloat;
  (** [json.load] on the text of a file: [inl] carries [str(e)]. *)
  json_load : string → string + json;
  (** pydantic's [HttpUrl] check. *)
  is_http_url : string → bool;
  (** [str(uuid.uuid4())] drawn for the request. *)
  uuid4 : string;
  (** [sys.executable]. *)
  sys_executable : string;
  (** [urllib.request.urlretrieve(url, _)]. *)
  urlretrieve : string → fetch_result;
  (** What happens when [subprocess.run] starts [cmd] on the given files. *)
  spawn : list string → gmap string string → spawn_result;
  (** [open(path, "w")]: [Some msg] is an [OSError]. *)
  open_w_error : string → option string;
  (** [os.remove(path)] on an existing path: [Some msg] is an [OSError]. *)
  remove_error : string → option string;
  (** [import aeneas; from aeneas.tools import execute_task]:
      [Some msg] is an [ImportError]. *)
  import_aeneas : option string
}.

Section WithEnv.
Context (E : Env).

(** [float(v)]. *)
Definition py_float (v : json) : result pyfloat :=
  match v with
  | JFloat f => Ok f
  | JInt z => float_of_Z z
  | JBool b => float_of_Z (if b then 1 else 0)
  | JStr s =>
      match float_of_str E s with
      | Some f => Ok f
      | None => Err (PyExc ValueError
                       ("could not convert string to float: '" +:+ s +:+ "'"))
      end
  | _ => Err (PyExc TypeError
                ("float() argument must be a string or a real number, not '"
                 +:+ type_name v +:+ "'"))
  end.

(** ** [AlignmentRequest.validate_lyrics] *)

Definition LF : string := String "010"%char EmptyString.

(** The message raised for a line that contains a newline. *)
Definition multiline_error (i : nat) : string :=
  "lyrics[" +:+ pretty i +:+ "] appears to be a multiline string. "
  +:+ "Each item in lyrics should be a single line. "
  +:+ "Split multiline strings into separate list items.".

(** The [for i, line in enumerate(v)] loop of the validator. *)
Fixpoint validate_lines (i : nat) (v : list json) : result unit :=
  match v with
  | [] => Ok tt
  | line :: rest =>
      match line with
      | JStr s =>
          if str_contains LF s then Err (PyExc ValueError (multiline_error i))
          else validate_lines (S i) rest
      | _ =>
          Err (PyExc ValueError
                 ("lyrics[" +:+ pretty i +:+ "] must be a string, got "
                  +:+ type_name line))
      end
  end.

Definition validate_lyrics (v : json) : result json :=
  match v with
  | JArr l =>
      if negb (truthy v) then Err (PyExc ValueError "lyrics cannot be empty")
      else
        let? _ := validate_lines 0 l in
        Ok v
  | _ => Err (PyExc ValueError "lyrics must be a list of strings")
  end.

(** ** [AlignmentResult] *)

Record AlignmentResult := {
  line_index : Z;
  text : string;
  start : pyfloat;
  end_ : pyfloat
}.

(** ** [parse_aeneas_output] *)

(** Body of the loop up to the two assignments of [start] and [end]. *)
Definition fragment_times (idx : nat) (fragment : json) : result (pyfloat * pyfloat) :=
  let? has_begin := py_in "begin" fragment in
  let? direct := (if has_begin : bool then py_in "end" fragment else Ok false) in
  if direct : bool then
    let? b := py_getitem_str fragment "begin" in
    let? start := py_float b in
    let? e := py_getitem_str fragment "end" in
    let? end_ := py_float e in
    Ok (start, end_)
  else
    let? lines := py_get fragment "lines" (JArr []) in
    if negb (truthy lines) then
      Err (HTTPException 500
             ("Fragment " +:+ pretty (Z.of_nat idx + 1) +:+ " has no timing information"))
    else
      let? first_line := py_subscript_end false lines in
      let? last_line := py_subscript_end true lines in
      let? b := py_get first_line "begin" (JInt 0) in
      let? start := py_float b in
      let? e := py_get last_line "end" (JInt 0) in
      let? end_ := py_float e in
      Ok (start, end_).

(** [for idx, fragment in enumerate(fragments)], appending to [results]. *)
Fixpoint parse_fragments (lyrics : list string) (idx : nat) (fragments : list json)
    (results : list AlignmentResult) : result (list AlignmentResult) :=
  match fragments with
  | [] => Ok results
  | fragment :: rest =>
      let? times := fragment_times idx fragment in
      let? text := (match lyrics !! idx with
                    | Some t => Ok t
                    | None => Err (PyExc IndexError "list index out of range")
                    end) in
      parse_fragments lyrics (S idx) rest
        (results ++ [ {| line_index := Z.of_nat idx + 1; text := text;
                         start := times.1; end_ := times.2 |} ])
  end.

(** [open(output_path)] followed by [json.load]. *)
Definition read_json (files : gmap string string) (output_path : string) : result json :=
  match files !! output_path with
  | None => Err (PyExc FileNotFoundError
                   ("[Errno 2] No such file or directory: '" +:+ output_path +:+ "'"))
  | Some content =>
      match json_load E content with
      | inl msg => Err (PyExc OtherException msg)
      | inr data => Ok data
      end
  end.

Definition parse_aeneas_output (files : gmap string string) (output_path : string)
    (lyrics : list string) : result (list AlignmentResult) :=
  let? data := (match read_json files output_path with
                | Ok data => Ok data
                | Err e => Err (HTTPException 500
                                  ("Failed to parse Aeneas output: " +:+ str_exn e))
                end) in
  let? fragments := py_get data "fragments" (JArr []) in
  let? n := py_len fragments in
  if negb (n =? length lyrics)%nat then
    Err (HTTPException 500
           ("Alignment mismatch: " +:+ pretty n +:+ " fragments for "
            +:+ pretty (length lyrics) +:+ " lyrics"))
  else
    let? items := py_iter fragments in
    parse_fragments lyrics 0 items [].

(** ** Library calls with effects *)

(** [urllib.request.urlretrieve(url, output_path)]: it writes the file, or
    fails (perhaps after part of the file was written), or, being called
    without a timeout, waits for ever on a server that stops answering. *)
Definition urlretrieve_to (url output_path : string) : M unit :=
  λ st,
    let st1 := add_event (EvFetch url output_path) st in
    match urlretrieve E url with
    | Fetched content =>
        (Ret tt, set_files (<[output_path := content]> (st_files st1)) st1)
    | FetchFailed msg (Some part) =>
        (Raise (PyExc OtherException msg),
         set_files (<[output_path := part]> (st_files st1)) st1)
    | FetchFailed msg None => (Raise (PyExc OtherException msg), st1)
    | FetchStalls (Some part) =>
        (Hang, set_files (<[output_path := part]> (st_files st1)) st1)
    | FetchStalls None => (Hang, st1)
    end.

(** Has a timeout of [t] seconds run out on a child that needs [d]? *)
Definition expired (timeout : option nat) (d : option nat) : bool :=
  match timeout, d with
  | Some t, Some n => (t <? n)%nat
  | Some _, None => true
  | None, _ => false
  end.

(** [subprocess.run(cmd, capture_output=True, text=True, check=check,
    timeout=timeout)].  With a timeout that runs out the child is killed and
    [TimeoutExpired] is raised; without one the call waits for the child. *)
Definition subprocess_run (cmd : list string) (check : bool) (timeout : option nat)
    : M CompletedProcess :=
  λ st,
    let st1 := add_event (EvSpawn cmd timeout) st in
    match spawn E cmd (st_files st1) with
    | SpawnNotFound msg => (Raise (PyExc FileNotFoundError msg), st1)
    | SpawnOSError msg => (Raise (PyExc OSError msg), st1)
    | Spawned p =>
        let st2 := set_files (files_after p) st1 in
        match timeout, expired timeout (duration p) with
        | Some t, true => (Raise (TimeoutExpired cmd t), st2)
        | _, _ =>
            match duration p with
            | None => (Hang, st2)
            | Some _ =>
                if check && negb (Z.eqb (returncode (completed p)) 0) then
                  (Raise (CalledProcessError (returncode (completed p))
                            (stderr (completed p))), st2)
                else (Ret (completed p), st2)
            end
        end
    end.

(** [os.path.exists(path)]. *)
Definition os_path_exists (path : string) : M bool :=
  λ st, (Ret (bool_decide (is_Some (st_files st !! path))), st).

(** [os.remove(path)]. *)
Definition os_remove (path : string) : M unit :=
  λ st,
    match st_files st !! path with
    | None =>
        (Raise (PyExc FileNotFoundError
                  ("[Errno 2] No such file or directory: '" +:+ path +:+ "'")), st)
    | Some _ =>
        match remove_error E path with
        | Some msg => (Raise (PyExc OSError msg), st)
        | None =>
            (Ret tt, add_event (EvRemove path) (set_files (delete path (st_files st)) st))
        end
    end.

(** [print(msg)] and [print(msg, file=sys.stderr)]. *)
Definition print (to_stderr : bool) (msg : string) : M unit :=
  λ st, (Ret tt, add_event (EvPrint to_stderr msg) st).

(** [os.path.join(dir, name)] for a relative [name]. *)
Definition os_path_join (dir name : string) : string := dir +:+ "/" +:+ name.

(** [ch.isspace()] for one character, given by its bytes.  The white-space
    characters are U+0009..U+000D, U+001C..U+0020, U+0085, U+00A0, U+1680,
    U+2000..U+200A, U+2028, U+2029, U+202F, U+205F and U+3000. *)
Definition is_space (ch : string) : bool :=
  match nat_of_ascii <$> String.list_ascii_of_string ch with
  | [a] => ((9 <=? a) && (a <=? 13) || (28 <=? a) && (a <=? 32))%nat
  | [a; b] => ((a =? 194) && ((b =? 133) || (b =? 160)))%nat
  | [a; b; c] =>
      ((a =? 225) && (b =? 154) && (c =? 128)
       || (a =? 226) && (b =? 128)
          && ((128 <=? c) && (c <=? 138) || (c =? 168) || (c =? 169) || (c =? 175))
       || (a =? 226) && (b =? 129) && (c =? 159)
       || (a =? 227) && (b =? 128) && (c =? 128))%nat
  | _ => false
  end.

(** Drop the leading white-space characters. *)
Fixpoint lstrip_chars (chars : list string) : list string :=
  match chars with
  | ch :: rest => if is_space ch then lstrip_chars rest else chars
  | [] => []
  end.

(** The string made of the given characters. *)
Definition join (chars : list string) : string := foldr String.append "" chars.

(** [s.strip()]: the characters of [s] without the leading and the trailing
    white space. *)
Definition strip (s : string) : string :=
  join (reverse (lstrip_chars (reverse (lstrip_chars (chars_of s))))).

(** ** The pipeline stages *)

Definition download_audio (url output_path : string) : M unit :=
  try_except (urlretrieve_to url output_path)
    (λ e, raise (HTTPException 400 ("Failed to download audio: " +:+ str_exn e))).

(** The [cmd] list of [convert_audio_to_wav]. *)
Definition ffmpeg_cmd (input_path output_path : string) : list string :=
  ["ffmpeg"; "-i"; input_path; "-ac"; "1"; "-ar"; "16000"; "-y"; output_path].

Definition convert_audio_to_wav (input_path output_path : string) : M unit :=
  try_except
    (let cmd := ffmpeg_cmd input_path output_path in
     let! result := subprocess_run cmd true None in
     ret tt)
    (λ e,
       match e with
       | CalledProcessError _ err =>
           raise (HTTPException 500 ("Audio conversion failed: " +:+ err))
       | PyExc FileNotFoundError _ =>
           raise (HTTPException 500 "ffmpeg not found. Please install ffmpeg.")
       | _ => raise e
       end).

(** The text written by the [for line in lyrics] loop. *)
Definition lyrics_text (lyrics : list string) : string :=
  foldr (λ line acc, strip line +:+ LF +:+ acc) "" lyrics.

Definition write_lyrics_file (lyrics : list string) (output_path : string) : M unit :=
  if bool_decide (lyrics = []) then
    raise (HTTPException 400 "Lyrics array cannot be empty")
  else
    λ st,
      match open_w_error E output_path with
      | Some msg => (Raise (PyExc OSError msg), st)
      | None =>
          (Ret tt,
           add_event (EvWrite output_path)
             (set_files (<[output_path := lyrics_text lyrics]> (st_files st)) st))
      end.

(** The [cmd] list of [run_aeneas_alignment]. *)
Definition aeneas_cmd (audio_path text_path output_path : string) : list string :=
  [sys_executable E; "-m"; "aeneas.tools.execute_task"; audio_path; text_path;
   "task_language=jpn|os_task_file_format=json|is_text_type=plain"; output_path].

Definition run_aeneas_alignment (audio_path text_path output_path : string) : M unit :=
  try_except
    (let cmd := aeneas_cmd audio_path text_path output_path in
     let! result := subprocess_run cmd true None in
     ret tt)
    (λ e,
       match e with
       | CalledProcessError _ err =>
           raise (HTTPException 500 ("Aeneas alignment failed: " +:+ err))
       | PyExc FileNotFoundError _ =>
           raise (HTTPException 500 "Aeneas not found. Please install aeneas.")
       | _ => raise e
       end).

(** What it means for a stage to start [cmd] and wait for it: the call is
    logged with no timeout, the stage never ends in [TimeoutExpired], it
    never returns when the child never exits, and it returns normally when
    the child exits with status 0, however long that takes. *)
Definition waits_for_child (st : state) (cmd : list string)
    (r : outcome unit * state) : Prop :=
  st_log r.2 = (st_log st ++ [EvSpawn cmd None])%list ∧
  (∀ c t, r.1 ≠ Raise (TimeoutExpired c t)) ∧
  (∀ p, spawn E cmd (st_files st) = Spawned p → duration p = None → r.1 = Hang) ∧
  (∀ p d, spawn E cmd (st_files st) = Spawned p → duration p = Some d →
          returncode (completed p) = 0 → r.1 = Ret tt).

(** ** [align_lyrics] *)

Record AlignmentRequest := {
  audio_url : string;
  lyrics : list string
}.

(** The [finally] block: remove each file that exists, ignoring failures. *)
Fixpoint cleanup (paths : list string) : M unit :=
  match paths with
  | [] => ret tt
  | file_path :: rest =>
      let! _ := try_except
                  (let! present := os_path_exists file_path in
                   if present : bool then os_remove file_path else ret tt)
                  (λ _, ret tt) in
      cleanup rest
  end.

Definition downloaded_audio : string := os_path_join "/tmp" ("audio_" +:+ uuid4 E).
Definition converted_audio : string :=
  os_path_join "/tmp" ("converted_" +:+ uuid4 E +:+ ".wav").
Definition lyrics_file : string :=
  os_path_join "/tmp" ("lyrics_" +:+ uuid4 E +:+ ".txt").
Definition alignment_output : string :=
  os_path_join "/tmp" ("alignment_" +:+ uuid4 E +:+ ".json").

Definition temp_paths : list string :=
  [downloaded_audio; converted_audio; lyrics_file; alignment_output].

(** The statements under [try:]. *)
Definition align_body (request : AlignmentRequest) : M (list AlignmentResult) :=
  let! _ := download_audio (audio_url request) downloaded_audio in
  let! _ := convert_audio_to_wav downloaded_audio converted_audio in
  let! _ := write_lyrics_file (lyrics request) lyrics_file in
  let! _ := run_aeneas_alignment converted_audio lyrics_file alignment_output in
  let! results := (λ st, of_result
                           (parse_aeneas_output (st_files st) alignment_output
                              (lyrics request)) st) in
  ret results.

(** The two [except] clauses. *)
Definition align_handler {A} (e : exn) : M A :=
  match e with
  | HTTPException _ _ => raise e
  | _ => raise (HTTPException 500 ("Unexpected error: " +:+ str_exn e))
  end.

Definition align_lyrics (request : AlignmentRequest) : M (list AlignmentResult) :=
  try_finally (try_except (align_body request) align_handler) (cleanup temp_paths).

(** ** Request construction and dispatch of [POST /align]

    The framework builds the [AlignmentRequest] from the body (the declared
    field types first, then the field validator) and calls the handler only
    with a request that was built. *)

Inductive response :=
| Response200 (results : list AlignmentResult)
| ResponseError (status_code : Z) (detail : string).

Fixpoint as_str_list (l : list json) : option (list string) :=
  match l with
  | [] => Some []
  | JStr s :: rest => cons s <$> as_str_list rest
  | _ => None
  end.

Definition new_AlignmentRequest (url : string) (lyrics_value : json)
    : result AlignmentRequest :=
  if negb (is_http_url E url) then Err (PyExc ValueError "audio_url: invalid URL")
  else
    match lyrics_value with
    | JArr l =>
        match as_str_list l with
        | Some _ =>
            let? v := validate_lyrics lyrics_value in
            match v with
            | JArr l' =>
                match as_str_list l' with
                | Some ls => Ok {| audio_url := url; lyrics := ls |}
                | None => Err (PyExc ValueError "lyrics: invalid")
                end
            | _ => Err (PyExc ValueError "lyrics: invalid")
            end
        | None => Err (PyExc ValueError "lyrics: input should be a valid string")
        end
    | _ => Err (PyExc ValueError "lyrics: input should be a valid list")
    end.

Definition post_align (url : string) (lyrics_value : json) : state → option response * state :=
  λ st,
    match new_AlignmentRequest url lyrics_value with
    | Err e => (Some (ResponseError 422 (str_exn e)), st)
    | Ok request =>
        match align_lyrics request st with
        | (Ret results, st') => (Some (Response200 results), st')
        | (Raise (HTTPException c d), st') => (Some (ResponseError c d), st')
        | (Raise _, st') => (Some (ResponseError 500 "Internal Server Error"), st')
        | (Hang, st') => (None, st')
        end
    end.

(** ** [check_dependencies] *)

(** [s * n]. *)
Fixpoint str_repeat (s : string) (n : nat) : string :=
  match n with
  | O => ""
  | S n' => s +:+ str_repeat s n'
  end.

Definition check_ffmpeg (errors : list string) : M (list string) :=
  try_except
    (let! result := subprocess_run ["ffmpeg"; "-version"] false (Some 5%nat) in
     if negb (Z.eqb (returncode result) 0) then
       ret (errors ++ ["ffmpeg is installed but returned an error"])%list
     else ret errors)
    (λ e,
       match e with
       | PyExc FileNotFoundError _ =>
           ret (errors ++ ["ffmpeg not found. Install with: brew install ffmpeg (macOS) or apt-get install ffmpeg (Linux)"])%list
       | TimeoutExpired _ _ => ret (errors ++ ["ffmpeg check timed out"])%list
       | _ => raise e
       end).

Definition check_espeak (errors : list string) : M (list string) :=
  try_except
    (let! result := subprocess_run ["espeak-ng"; "--version"] false (Some 5%nat) in
     if negb (Z.eqb (returncode result) 0) then
       ret (errors ++ ["espeak-ng is installed but returned an error"])%list
     else ret errors)
    (λ e,
       match e with
       | PyExc FileNotFoundError _ =>
           ret (errors ++ ["espeak-ng not found. Install with: brew install espeak-ng (macOS) or apt-get install espeak-ng (Linux)"])%list
       | TimeoutExpired _ _ => ret (errors ++ ["espeak-ng check timed out"])%list
       | _ => raise e
       end).

Definition check_aeneas (errors : list string) : M (list string) :=
  match import_aeneas E with
  | Some msg =>
      ret (errors ++ ["aeneas Python module not found. Install with: pip3 install aeneas. Error: " +:+ msg])%list
  | None => ret errors
  end.

(** ["\n".join([f"  - {error}" for error in errors])]. *)
Definition error_msg (errors : list string) : string :=
  String.concat LF (map (λ error, "  - " +:+ error) errors).

(** The adjacent literals between the two [+] form one string, and it is
    that whole string which [* 60] repeats. *)
Definition full_msg (errors : list string) : string :=
  LF +:+ str_repeat "=" 60
  +:+ str_repeat
        (LF +:+ "DEPENDENCY CHECK FAILED" +:+ LF
         +:+ "The following required dependencies are missing or broken:"
         +:+ LF +:+ LF
         +:+ error_msg errors +:+ LF +:+ LF
         +:+ "Please install all dependencies before starting the server." +:+ LF
         +:+ "=") 60
  +:+ LF.

Definition check_dependencies : M unit :=
  let errors := [] in
  let! errors := check_ffmpeg errors in
  let! errors := check_espeak errors in
  let! errors := check_aeneas errors in
  if negb (bool_decide (errors = [])) then
    let! _ := print true (full_msg errors) in
    raise (PyExc RuntimeError "Missing required dependencies. See error messages above.")
  else
    print false "✓ All dependencies verified: ffmpeg, espeak-ng, aeneas".

Definition startup_event : M unit := check_dependencies.

(** *** What the preflight is meant to collect

    The fault, if any, that one probe contributes: the binary is missing,
    the probe ran out of its five seconds, or the tool exited with a
    non-zero status.  Any other failure to start the tool is not a collected
    fault (the exception leaves [check_dependencies]). *)
Definition probe_fault (tool : string) (r : spawn_result) : option string :=
  match r with
  | SpawnNotFound _ =>
      Some (tool +:+ " not found. Install with: brew install " +:+ tool
            +:+ " (macOS) or apt-get install " +:+ tool +:+ " (Linux)")
  | SpawnOSError _ => None
  | Spawned p =>
      if expired (Some 5%nat) (duration p) then Some (tool +:+ " check timed out")
      else if negb (Z.eqb (returncode (completed p)) 0) then
        Some (tool +:+ " is installed but returned an error")
      else None
  end.

Definition files_after_probe (r : spawn_result) (fs : gmap string string)
    : gmap string string :=
  match r with
  | Spawned p => files_after p
  | _ => fs
  end.

Definition ffmpeg_probe (st : state) : spawn_result :=
  spawn E ["ffmpeg"; "-version"] (st_files st).

Definition espeak_probe (st : state) : spawn_result :=
  spawn E ["espeak-ng"; "--version"] (files_after_probe (ffmpeg_probe st) (st_files st)).

Definition aeneas_fault : option string :=
  (λ msg, "aeneas Python module not found. Install with: pip3 install aeneas. Error: "
          +:+ msg) <$> import_aeneas E.

(** All faults of the three probes, each probe contributing whether or not
    an earlier one failed. *)
Definition preflight_faults (st : state) : list string :=
  (option_list (probe_fault "ffmpeg" (ffmpeg_probe st))
   ++ option_list (probe_fault "espeak-ng" (espeak_probe st))
   ++ option_list aeneas_fault)%list.

(** [sub] occurs in [s]. *)
Definition occurs_in (sub s : string) : Prop :=
  ∃ pre post, s = pre +:+ sub +:+ post.


End WithEnv.

(** * Notions used to state further properties *)


(** The record the loop of the reconciler builds at position [k]. *)
Definition result_at (times : nat → pyfloat * pyfloat) (k : nat) (line : string)
    : AlignmentResult :=
  {| line_index := Z.of_nat k + 1; text := line;
     start := (times k).1; end_ := (times k).2 |}.

(** An exception that leaves the reconciler is either an [HTTPException]
    with status 500 or not an [HTTPException] at all. *)
Definition internal (e : exn) : Prop :=
  match e with
  | HTTPException code _ => code = 500
  | _ => True
  end.

Definition fails_internally {A} (r : result A) : Prop :=
  match r with
  | Ok _ => True
  | Err e => internal e
  end.

(** Is [ev] a call to [print]? *)
Definition is_print (ev : event) : bool :=
  match ev with
  | EvPrint _ _ => true
  | _ => false
  end.

(** Is [ev] the start of a child process? *)
Definition is_spawn (ev : event) : bool :=
  match ev with
  | EvSpawn _ _ => true
  | _ => false
  end.

(** * Concrete worlds

    Small environments on which the model is run: the scenarios of the
    specification and the inputs of the counterexamples. *)

Module Scenario.

(** The binary64 value [m * 2^e]. *)
Definition fl (m e : Z) : pyfloat := binary_normalize float_prec float_emax m e false.

Definition direct (b e : pyfloat) : json :=
  JObj [("begin", JFloat b); ("end", JFloat e)].

(** Two fragments with the direct pairs (0.0, 2.5) and (2.5, 5.0). *)
Definition two_fragments : json :=
  JObj [("fragments",
         JArr [direct float_zero (fl 5 (-1)); direct (fl 5 (-1)) (fl 5 0)])].

(** One fragment with the direct pair (5.0, 2.0). *)
Definition backwards_fragment : json :=
  JObj [("fragments", JArr [direct (fl 5 0) (fl 2 0)])].


Definition decode (content : string) : string + json :=
  if String.eqb content "two" then inr two_fragments
  else if String.eqb content "backwards" then inr backwards_fragment
  else inl "Expecting value: line 1 column 1 (char 0)".

Definition exits (rc : Z) (err : string) (fs : gmap string string) : spawn_result :=
  Spawned {| duration := Some 3%nat;
             completed := {| returncode := rc; stdout := ""; stderr := err |};
             files_after := fs |}.

Definition never_exits (fs : gmap string string) : spawn_result :=
  Spawned {| duration := None;
             completed := {| returncode := 0; stdout := ""; stderr := "" |};
             files_after := fs |}.

(** Every tool is installed and works: the converter and the aligner write
    their output file (the last argument), anything else just exits 0. *)
Definition tools_ok (cmd : list string) (fs : gmap string string) : spawn_result :=
  match cmd with
  | [_; "-i"; _; _; _; _; _; _; out] => exits 0 "" (<[out := "wav"]> fs)
  | [_; "-m"; _; _; _; _; out] => exits 0 "" (<[out := "two"]> fs)
  | _ => exits 0 "" fs
  end.

Definition world (fetch : fetch_result)
    (sp : list string → gmap string string → spawn_result)
    (rm : string → option string) (imp : option string) : Env :=
  {| float_of_str := λ _, None;
     json_load := decode;
     is_http_url := λ _, true;
     uuid4 := "u1";
     sys_executable := "/usr/bin/python3";
     urlretrieve := λ _, fetch;
     spawn := sp;
     open_w_error := λ _, None;
     remove_error := rm;
     import_aeneas := imp |}.

Definition healthy : Env := world (Fetched "mp3") tools_ok (λ _, None) None.

Definition st0 : state := {| st_files := ∅; st_log := [] |}.

(** The converter exits with status 1 after writing to its standard error. *)
Definition converter_fails (cmd : list string) (fs : gmap string string)
    : spawn_result :=
  match cmd with
  | [_; "-i"; _; _; _; _; _; _; _] => exits 1 "boom" fs
  | _ => tools_ok cmd fs
  end.

Definition broken_converter : Env :=
  world (Fetched "mp3") converter_fails (λ _, None) None.

(** No child process ever exits. *)
Definition stuck : Env :=
  world (Fetched "mp3") (λ _ fs, never_exits fs) (λ _, None) None.

(** The converter binary is missing, the speech tool does not answer and
    the aligner module cannot be imported. *)
Definition nothing_installed : Env :=
  world (Fetched "mp3")
    (λ cmd fs,
       match cmd with
       | "ffmpeg" :: _ => SpawnNotFound "[Errno 2] No such file or directory: 'ffmpeg'"
       | _ => never_exits fs
       end)
    (λ _, None) (Some "No module named 'aeneas'").

Definition url : string := "https://x/a.mp3".

Definition two_lines : json := JArr [JStr "haru"; JStr " yume "].

Definition two_lines_request : AlignmentRequest :=
  {| audio_url := url; lyrics := ["haru"; " yume "] |}.

Definition two_results : list AlignmentResult :=
  [ {| line_index := 1; text := "haru"; start := float_zero; end_ := fl 5 (-1) |};
    {| line_index := 2; text := " yume "; start := fl 5 (-1); end_ := fl 5 0 |} ].

End Scenario.

(** Further worlds, for the properties beyond the scenarios above. *)

Module MoreScenarios.
Import Scenario.

(** An output with a second fragment that carries no timing. *)
Definition second_fragment_empty : json :=
  JObj [("fragments", JArr [direct float_zero (fl 5 (-1)); JObj []])].

Definition decode_more (content : string) : string + json :=
  if String.eqb content "second empty" then inr second_fragment_empty
  else if String.eqb content "no key" then inr (JObj [])
  else decode content.

Definition reading : Env :=
  {| float_of_str := λ _, None;
     json_load := decode_more;
     is_http_url := λ _, true;
     uuid4 := "u1";
     sys_executable := "/usr/bin/python3";
     urlretrieve := λ _, Fetched "mp3";
     spawn := tools_ok;
     open_w_error := λ _, None;
     remove_error := λ _, None;
     import_aeneas := None |}.

(** An output whose only fragment carries the [int] pair (1, 3). *)
Definition int_fragment : json :=
  JObj [("fragments", JArr [JObj [("begin", JInt 1); ("end", JInt 3)]])].

Definition decode_ints (content : string) : string + json :=
  if String.eqb content "ints" then inr int_fragment else decode content.

Definition reading_ints : Env :=
  {| float_of_str := λ _, None;
     json_load := decode_ints;
     is_http_url := λ _, true;
     uuid4 := "u1";
     sys_executable := "/usr/bin/python3";
     urlretrieve := λ _, Fetched "mp3";
     spawn := tools_ok;
     open_w_error := λ _, None;
     remove_error := λ _, None;
     import_aeneas := None |}.

(** The aligner exits 0 but what it writes is not JSON. *)
Definition aligner_writes_garbage (cmd : list string) (fs : gmap string string)
    : spawn_result :=
  match cmd with
  | [_; "-m"; _; _; _; _; out] => exits 0 "" (<[out := "garbage"]> fs)
  | _ => tools_ok cmd fs
  end.

Definition garbage_out : Env :=
  world (Fetched "mp3") aligner_writes_garbage (λ _, None) None.

(** The converter is present but may not be executed. *)
Definition converter_denied : Env :=
  world (Fetched "mp3")
    (λ cmd fs,
       match cmd with
       | "ffmpeg" :: _ => SpawnOSError "[Errno 13] Permission denied: 'ffmpeg'"
       | _ => tools_ok cmd fs
       end)
    (λ _, None) None.

(** The download breaks off after part of the file was written. *)
Definition fetch_breaks_off : Env :=
  world (FetchFailed "retrieval incomplete" (Some "mp")) tools_ok (λ _, None) None.

(** The converter binary is missing and the speech tool may not be
    executed. *)
Definition speech_tool_denied : Env :=
  world (Fetched "mp3")
    (λ cmd fs,
       match cmd with
       | "ffmpeg" :: _ => SpawnNotFound "[Errno 2] No such file or directory: 'ffmpeg'"
       | _ => SpawnOSError "[Errno 13] Permission denied: 'espeak-ng'"
       end)
    (λ _, None) None.

Definition two_times (k : nat) : pyfloat * pyfloat :=
  match k with
  | O => (float_zero, fl 5 (-1))
  | _ => (fl 5 (-1), fl 5 0)
  end.

End MoreScenarios.

(** * Properties *)

(** ** The result and effect monads *)

Lemma result_bind_Ok {A B} (m : result A) (k : A → result B) (b : B) :
  result_bind m k = Ok b → ∃ a, m = Ok a ∧ k a = Ok b.
Proof. destruct m as [a|e]; simpl; [eauto | discriminate]. Qed.

Lemma bind_Ret {A B} (m : M A) (k : A → M B) st b st' :
  bind m k st = (Ret b, st') → ∃ a st1, m st = (Ret a, st1) ∧ k a st1 = (Ret b, st').
Proof.
  unfold bind. destruct (m st) as [[a|e|] st1]; intros H; try discriminate.
  eauto.
Qed.

Lemma try_except_Ret {A} (body : M A) (handler : exn → M A) st a st' :
  (∀ e st1, handler e st1 ≠ (Ret a, st')) →
  try_except body handler st = (Ret a, st') → body st = (Ret a, st').
Proof.
  unfold try_except. intros Hh.
  destruct (body st) as [[x|e|] st1]; intros H; try done.
  by apply Hh in H.
Qed.

Lemma try_finally_Ret {A} (body : M A) (fin : M unit) st a st' :
  try_finally body fin st = (Ret a, st') →
  ∃ st1, body st = (Ret a, st1) ∧ fin st1 = (Ret tt, st').
Proof.
  unfold try_finally.
  destruct (body st) as [[x|e|] st1]; [| |discriminate];
    destruct (fin st1) as [[[]|e'|] st2] eqn:Hfin; intros H; try discriminate.
  simplify_eq. eauto.
Qed.

(** ** The reconciler *)

Section Reconciler.
Context (E : Env).

Lemma py_iter_length (v : json) (n : nat) (items : list json) :
  py_len v = Ok n → py_iter v = Ok items → length items = n.
Proof.
  destruct v; simpl; try discriminate; intros [= <-] [= <-].
  - unfold str_chars. by rewrite length_fmap.
  - done.
  - by rewrite length_map.
Qed.

(** What the loop appends: one record per fragment, numbered from [idx + 1],
    carrying the lyric at the same position and the times of the fragment. *)
Lemma parse_fragments_Ok (ls : list string) (fragments : list json) :
  ∀ (idx : nat) (results out : list AlignmentResult),
    parse_fragments E ls idx fragments results = Ok out →
    ∃ new, out = (results ++ new)%list ∧ length new = length fragments ∧
      ∀ (k : nat) (r : AlignmentResult), new !! k = Some r →
        ∃ fragment, fragments !! k = Some fragment ∧
          ls !! (idx + k)%nat = Some (text r) ∧
          line_index r = Z.of_nat (idx + k) + 1 ∧
          fragment_times E (idx + k) fragment = Ok (start r, end_ r).
Proof.
  induction fragments as [|fragment rest IH]; simpl; intros idx results out H.
  - injection H as <-. exists []. rewrite app_nil_r. split_and!; [done..|].
    intros k r Hk. by rewrite lookup_nil in Hk.
  - apply result_bind_Ok in H as ([s e] & Htimes & H).
    apply result_bind_Ok in H as (t & Htext & H).
    destruct (ls !! idx) as [t'|] eqn:Hidx; [|discriminate].
    injection Htext as ->.
    apply IH in H as (new & -> & Hlen & Hnew).
    eexists (_ :: new). rewrite <- app_assoc. split_and!; [done|simpl; lia|].
    intros [|k] r Hk; simpl in Hk.
    + injection Hk as <-. exists fragment. simpl.
      rewrite Nat.add_0_r. eauto.
    + apply Hnew in Hk as (f & Hf & Ht & Hi & Hft).
      exists f. replace (idx + S k)%nat with (S idx + k)%nat by lia. eauto.
Qed.

Lemma parse_aeneas_output_Ok (files : gmap string string) (path : string)
    (ls : list string) (results : list AlignmentResult) :
  parse_aeneas_output E files path ls = Ok results →
  ∃ data fragments items,
    read_json E files path = Ok data ∧
    py_get data "fragments" (JArr []) = Ok fragments ∧
    py_len fragments = Ok (length ls) ∧
    py_iter fragments = Ok items ∧
    length results = length ls ∧
    ∀ (k : nat) (r : AlignmentResult), results !! k = Some r →
      ∃ fragment, items !! k = Some fragment ∧
        ls !! k = Some (text r) ∧
        line_index r = Z.of_nat k + 1 ∧
        fragment_times E k fragment = Ok (start r, end_ r).
Proof.
  unfold parse_aeneas_output. intros H.
  apply result_bind_Ok in H as (data & Hdata & H).
  destruct (read_json E files path) as [data'|e] eqn:Hread; [|discriminate].
  injection Hdata as ->.
  apply result_bind_Ok in H as (fragments & Hget & H).
  apply result_bind_Ok in H as (n & Hlen & H).
  destruct (n =? length ls)%nat eqn:Hn; [|discriminate]. simpl in H.
  apply Nat.eqb_eq in Hn. subst n.
  apply result_bind_Ok in H as (items & Hiter & H).
  apply parse_fragments_Ok in H as (new & -> & Hnew & Hall).
  exists data, fragments, items. split_and!; try done.
  simpl. rewrite Hnew. eapply py_iter_length; eauto.
Qed.

(** The records of a successful reconciliation, read off as three lists. *)
Lemma parse_aeneas_output_shape (files : gmap string string) (path : string)
    (ls : list string) (results : list AlignmentResult) :
  parse_aeneas_output E files path ls = Ok results →
  length results = length ls ∧
  line_index <$> results = Z.of_nat <$> seq 1 (length ls) ∧
  text <$> results = ls.
Proof.
  intros H. apply parse_aeneas_output_Ok in H
    as (data & fragments & items & _ & _ & _ & _ & Hlen & Hall).
  split_and!; [done| |].
  - apply list_eq. intros k. rewrite !list_lookup_fmap.
    destruct (results !! k) as [r|] eqn:Hk; simpl.
    + pose proof (lookup_lt_Some _ _ _ Hk) as Hlt.
      apply Hall in Hk as (_ & _ & _ & -> & _).
      rewrite lookup_seq_lt by lia. simpl. f_equal. lia.
    + apply lookup_ge_None in Hk.
      rewrite lookup_seq_ge by lia. done.
  - apply list_eq. intros k. rewrite list_lookup_fmap.
    destruct (results !! k) as [r|] eqn:Hk; simpl.
    + apply Hall in Hk as (_ & _ & -> & _). done.
    + apply lookup_ge_None in Hk. symmetry. apply lookup_ge_None. lia.
Qed.

(** C2. When the number of fragments differs from the number of lines the
    reconciler fails with the 500 "Alignment mismatch" fault and returns no
    result; it returns results only when the two counts are equal. *)
Theorem fragment_count_mismatch_is_fatal (files : gmap string string) (path : string)
    (ls : list string) (data fragments : json) (n : nat) :
  read_json E files path = Ok data →
  py_get data "fragments" (JArr []) = Ok fragments →
  py_len fragments = Ok n →
  (n ≠ length ls →
     parse_aeneas_output E files path ls
     = Err (HTTPException 500
              ("Alignment mismatch: " +:+ pretty n +:+ " fragments for "
               +:+ pretty (length ls) +:+ " lyrics"))) ∧
  (∀ results, parse_aeneas_output E files path ls = Ok results → n = length ls).
Proof.
  intros Hread Hget Hlen. split.
  - intros Hne. unfold parse_aeneas_output. rewrite Hread. simpl.
    rewrite Hget. simpl. rewrite Hlen. simpl.
    apply Nat.eqb_neq in Hne. by rewrite Hne.
  - intros results H.
    apply parse_aeneas_output_Ok in H
      as (data' & fragments' & items & Hread' & Hget' & Hlen' & _).
    congruence.
Qed.

(** A fragment that is a [dict] with [float] values under both [begin] and
    [end] yields exactly these two values. *)
Lemma fragment_times_direct (idx : nat) (kvs : list (string * json)) (b e : pyfloat) :
  dict_lookup "begin" kvs = Some (JFloat b) →
  dict_lookup "end" kvs = Some (JFloat e) →
  fragment_times E idx (JObj kvs) = Ok (b, e).
Proof. intros Hb He. unfold fragment_times. simpl. by rewrite Hb, He. Qed.

(** The only fragments that yield times are the [dict]s, and their times are
    the conversions by [float] of the direct pair or, failing that, of the
    first sub-line's [begin] and the last sub-line's [end] (0 when the key
    is missing). *)
Lemma fragment_times_Ok_inv (idx : nat) (fragment : json) (s t : pyfloat) :
  fragment_times E idx fragment = Ok (s, t) →
  ∃ kvs, fragment = JObj kvs ∧
    ((∃ b e, dict_lookup "begin" kvs = Some b ∧ dict_lookup "end" kvs = Some e ∧
             py_float E b = Ok s ∧ py_float E e = Ok t) ∨
     ((dict_lookup "begin" kvs = None ∨ dict_lookup "end" kvs = None) ∧
      ∃ subs first last_,
        dict_lookup "lines" kvs = Some (JArr subs) ∧
        head subs = Some (JObj first) ∧ last subs = Some (JObj last_) ∧
        py_float E (default (JInt 0) (dict_lookup "begin" first)) = Ok s ∧
        py_float E (default (JInt 0) (dict_lookup "end" last_)) = Ok t)).
Proof.
  unfold fragment_times. intros H.
  apply result_bind_Ok in H as (has_begin & Hin1 & H).
  apply result_bind_Ok in H as (direct & Hin2 & H).
  destruct fragment as [| | | |str|l|kvs]; try discriminate.
  - destruct direct.
    + apply result_bind_Ok in H as (b & Hb & _). discriminate.
    + apply result_bind_Ok in H as (lines & Hl & _). discriminate.
  - destruct direct.
    + apply result_bind_Ok in H as (b & Hb & _). discriminate.
    + apply result_bind_Ok in H as (lines & Hl & _). discriminate.
  - exists kvs. split; [done|]. cbn [py_in] in Hin1, Hin2.
    injection Hin1 as <-. destruct direct.
    + left. apply result_bind_Ok in H as (b & Hb & H).
      apply result_bind_Ok in H as (s' & Hs & H).
      apply result_bind_Ok in H as (e & He & H).
      apply result_bind_Ok in H as (t' & Ht & H).
      injection H as -> ->. cbn [py_getitem_str] in Hb, He.
      destruct (dict_lookup "begin" kvs) as [b'|]; [|discriminate].
      destruct (dict_lookup "end" kvs) as [e'|]; [|discriminate].
      injection Hb as ->. injection He as ->. eauto 8.
    + right. split.
      { destruct (dict_lookup "begin" kvs); [|by left]. right.
        rewrite bool_decide_true in Hin2 by eauto. injection Hin2 as Hin2.
        destruct (dict_lookup "end" kvs); [|done].
        by rewrite bool_decide_true in Hin2 by eauto. }
      apply result_bind_Ok in H as (lines & Hl & H). cbn [py_get] in Hl.
      injection Hl as <-.
      destruct (negb (truthy (default (JArr []) (dict_lookup "lines" kvs))));
        [discriminate|].
      apply result_bind_Ok in H as (x & Hx & H).
      apply result_bind_Ok in H as (y & Hy & H).
      apply result_bind_Ok in H as (b & Hb & H).
      apply result_bind_Ok in H as (s' & Hs & H).
      apply result_bind_Ok in H as (e & He & H).
      apply result_bind_Ok in H as (t' & Ht & H).
      injection H as -> ->.
      destruct x as [| | | | | |first]; try discriminate.
      destruct y as [| | | | | |last_]; try discriminate.
      cbn [py_get] in Hb, He. injection Hb as <-. injection He as <-.
      destruct (dict_lookup "lines" kvs) as [[| | | |str|subs|o]|];
        cbn [default from_option id py_subscript_end] in Hx, Hy; try discriminate.
      * unfold str_chars in Hx.
        destruct (head (JStr <$> chars_of str)) as [x|] eqn:Hh; [|discriminate].
        injection Hx as ->. apply head_Some_elem_of, list_elem_of_fmap in Hh
          as (c & Hc & _). discriminate.
      * exists subs, first, last_.
        destruct (head subs) as [x|]; [|discriminate]. injection Hx as ->.
        destruct (last subs) as [y|]; [|discriminate]. injection Hy as ->.
        done.
Qed.

(** C3, as amended. The times of every result of a successful reconciliation
    are those of the fragment at the same position, taken over as they are:
    the fragment is a [dict], and [start] and [end] are the [float] values of
    its [begin] and [end] or, when that pair is missing, of the first
    sub-line's [begin] and the last sub-line's [end].  Nothing is checked
    or enforced: for a direct pair of [float] values [b] and [e] the result
    has [start = b] and [end = e], so it is non-negative and ordered exactly
    when the engine's values are. *)
Theorem result_times_are_the_fragment_times (files : gmap string string)
    (path : string) (ls : list string) (results : list AlignmentResult) :
  parse_aeneas_output E files path ls = Ok results →
  ∃ data fragments items,
    read_json E files path = Ok data ∧
    py_get data "fragments" (JArr []) = Ok fragments ∧
    py_iter fragments = Ok items ∧
    ∀ (k : nat) (r : AlignmentResult), results !! k = Some r →
      ∃ kvs, items !! k = Some (JObj kvs) ∧
        fragment_times E k (JObj kvs) = Ok (start r, end_ r) ∧
        ((∃ b e, dict_lookup "begin" kvs = Some b ∧ dict_lookup "end" kvs = Some e ∧
                 py_float E b = Ok (start r) ∧ py_float E e = Ok (end_ r)) ∨
         ((dict_lookup "begin" kvs = None ∨ dict_lookup "end" kvs = None) ∧
          ∃ subs first last_,
            dict_lookup "lines" kvs = Some (JArr subs) ∧
            head subs = Some (JObj first) ∧ last subs = Some (JObj last_) ∧
            py_float E (default (JInt 0) (dict_lookup "begin" first)) = Ok (start r) ∧
            py_float E (default (JInt 0) (dict_lookup "end" last_)) = Ok (end_ r))) ∧
        ∀ b e, dict_lookup "begin" kvs = Some (JFloat b) →
          dict_lookup "end" kvs = Some (JFloat e) →
          start r = b ∧ end_ r = e ∧
          (float_le float_zero (start r) && float_le (start r) (end_ r)
           = float_le float_zero b && float_le b e).
Proof.
  intros H. apply parse_aeneas_output_Ok in H
    as (data & fragments & items & Hread & Hget & _ & Hiter & _ & Hall).
  exists data, fragments, items. split_and!; try done.
  intros k r Hk. apply Hall in Hk as (fragment & Hfrag & _ & _ & Htimes).
  destruct (fragment_times_Ok_inv _ _ _ _ Htimes) as (kvs & -> & Hshape).
  exists kvs. split_and!; try done.
  intros b e Hb He.
  rewrite (fragment_times_direct k kvs b e Hb He) in Htimes.
  injection Htimes as <- <-. done.
Qed.


End Reconciler.

(** ** Request construction *)

Lemma as_str_list_Some (l : list json) (ls : list string) :
  as_str_list l = Some ls → l = JStr <$> ls.
Proof.
  revert ls. induction l as [|x l IH]; simpl; intros ls H.
  - by injection H as <-.
  - destruct x; try discriminate.
    destruct (as_str_list l) as [ls'|]; [|discriminate].
    injection H as <-. simpl. f_equal. by apply IH.
Qed.

Lemma validate_lyrics_Ok (v v' : json) :
  validate_lyrics v = Ok v' →
  v' = v ∧ ∃ l, v = JArr l ∧ l ≠ [] ∧ validate_lines 0 l = Ok tt.
Proof.
  destruct v; simpl; try discriminate.
  case_bool_decide as Hl; simpl; [discriminate|].
  intros H. apply result_bind_Ok in H as ([] & Hlines & [= <-]). eauto.
Qed.

Lemma new_AlignmentRequest_Ok (E : Env) (url : string) (v : json)
    (request : AlignmentRequest) :
  new_AlignmentRequest E url v = Ok request →
  audio_url request = url ∧ v = JArr (JStr <$> lyrics request) ∧
  lyrics request ≠ [] ∧ validate_lyrics v = Ok v.
Proof.
  unfold new_AlignmentRequest.
  destruct (is_http_url E url); simpl; [|discriminate].
  destruct v as [| | | | |l|]; try discriminate.
  destruct (as_str_list l) as [ls0|] eqn:Hl; [|discriminate].
  intros H. apply result_bind_Ok in H as (v' & Hv & H).
  pose proof Hv as Hv'.
  apply validate_lyrics_Ok in Hv as (-> & l' & [= <-] & Hne & _).
  rewrite Hl in H. injection H as <-. simpl.
  apply as_str_list_Some in Hl. subst l.
  split_and!; try done. intros ->. done.
Qed.




(** C10. A request that passed validation has a non-empty list of lines, so
    writing the lyric file never takes the branch that raises the 400
    "Lyrics array cannot be empty" error. *)
Theorem validated_lyrics_never_empty (E : Env) (url : string) (v : json)
    (request : AlignmentRequest) :
  new_AlignmentRequest E url v = Ok request →
  lyrics request ≠ [] ∧
  ∀ (path : string) (st : state),
    (write_lyrics_file E (lyrics request) path st).1
    ≠ Raise (HTTPException 400 "Lyrics array cannot be empty").
Proof.
  intros Hreq. apply new_AlignmentRequest_Ok in Hreq as (_ & _ & Hne & _).
  split; [done|]. intros path st. unfold write_lyrics_file.
  rewrite bool_decide_false by done.
  by destruct (open_w_error E path).
Qed.

(** ** The request pipeline *)

Section Pipeline.
Context (E : Env).

Lemma align_handler_not_Ret {A} (e : exn) (st : state) (a : A) (st' : state) :
  align_handler e st ≠ (Ret a, st').
Proof. destruct e; done. Qed.

(** A request that returns results got them from the reconciler. *)
Lemma align_lyrics_Ret (request : AlignmentRequest) (st st' : state)
    (results : list AlignmentResult) :
  align_lyrics E request st = (Ret results, st') →
  ∃ st1, parse_aeneas_output E (st_files st1) (alignment_output E) (lyrics request)
         = Ok results.
Proof.
  unfold align_lyrics. intros H.
  apply try_finally_Ret in H as (st1 & H & _).
  apply try_except_Ret in H; [|intros; apply align_handler_not_Ret].
  unfold align_body in H.
  apply bind_Ret in H as (_ & s1 & _ & H).
  apply bind_Ret in H as (_ & s2 & _ & H).
  apply bind_Ret in H as (_ & s3 & _ & H).
  apply bind_Ret in H as (_ & s4 & _ & H).
  apply bind_Ret in H as (res & s5 & H & Hret).
  injection Hret as -> ->.
  exists s4.
  destruct (parse_aeneas_output E (st_files s4) (alignment_output E) (lyrics request));
    simpl in H; [by injection H as -> _ | discriminate].
Qed.

(** C1. For every valid request with N lines, a successful response holds
    exactly N results in input order: the [line_index] values are 1..N
    ascending and the [text] at each position is the input line at that
    position, unchanged (the stripping done for the lyric file does not
    reach the response). *)
Theorem post_align_success_matches_lines (url : string) (v : json) (st st' : state)
    (results : list AlignmentResult) :
  post_align E url v st = (Some (Response200 results), st') →
  ∃ lines : list string,
    v = JArr (JStr <$> lines) ∧
    length results = length lines ∧
    line_index <$> results = Z.of_nat <$> seq 1 (length lines) ∧
    text <$> results = lines.
Proof.
  unfold post_align. intros H.
  destruct (new_AlignmentRequest E url v) as [request|e] eqn:Hreq; [|discriminate].
  apply new_AlignmentRequest_Ok in Hreq as (_ & -> & _ & _).
  destruct (align_lyrics E request st) as [[res|e|] st1] eqn:Hrun;
    [|destruct e; discriminate|discriminate].
  injection H as -> ->.
  apply align_lyrics_Ret in Hrun as (s & Hparse).
  apply parse_aeneas_output_shape in Hparse as (Hlen & Hidx & Htext).
  exists (lyrics request). done.
Qed.

(** *** The stages that spawn a process *)

Lemma download_audio_failed (url path msg : string) (part : option string)
    (st : state) :
  urlretrieve E url = FetchFailed msg part →
  ∃ st', download_audio E url path st
         = (Raise (HTTPException 400 ("Failed to download audio: " +:+ msg)), st').
Proof.
  intros Hfetch. unfold download_audio, try_except, urlretrieve_to.
  rewrite Hfetch. destruct part; eauto.
Qed.

Lemma convert_not_found (inp out msg : string) (st : state) :
  spawn E (ffmpeg_cmd inp out) (st_files st) = SpawnNotFound msg →
  ∃ st', convert_audio_to_wav E inp out st
         = (Raise (HTTPException 500 "ffmpeg not found. Please install ffmpeg."), st').
Proof.
  intros Hrun. unfold convert_audio_to_wav, try_except, bind, subprocess_run.
  cbn [st_files add_event]. rewrite Hrun. eauto.
Qed.

Lemma convert_nonzero (inp out : string) (p : process) (d : nat) (st : state) :
  spawn E (ffmpeg_cmd inp out) (st_files st) = Spawned p →
  duration p = Some d →
  returncode (completed p) ≠ 0 →
  ∃ st', convert_audio_to_wav E inp out st
         = (Raise (HTTPException 500
                     ("Audio conversion failed: " +:+ stderr (completed p))), st').
Proof.
  intros Hrun Hd Hrc. unfold convert_audio_to_wav, try_except, bind, subprocess_run.
  cbn [st_files add_event]. rewrite Hrun, Hd.
  apply Z.eqb_neq in Hrc. rewrite Hrc. cbn. eauto.
Qed.

Lemma aeneas_not_found (audio txt out msg : string) (st : state) :
  spawn E (aeneas_cmd E audio txt out) (st_files st) = SpawnNotFound msg →
  ∃ st', run_aeneas_alignment E audio txt out st
         = (Raise (HTTPException 500 "Aeneas not found. Please install aeneas."), st').
Proof.
  intros Hrun. unfold run_aeneas_alignment, try_except, bind, subprocess_run.
  cbn [st_files add_event]. rewrite Hrun. eauto.
Qed.

Lemma aeneas_nonzero (audio txt out : string) (p : process) (d : nat) (st : state) :
  spawn E (aeneas_cmd E audio txt out) (st_files st) = Spawned p →
  duration p = Some d →
  returncode (completed p) ≠ 0 →
  ∃ st', run_aeneas_alignment E audio txt out st
         = (Raise (HTTPException 500
                     ("Aeneas alignment failed: " +:+ stderr (completed p))), st').
Proof.
  intros Hrun Hd Hrc. unfold run_aeneas_alignment, try_except, bind, subprocess_run.
  cbn [st_files add_event]. rewrite Hrun, Hd.
  apply Z.eqb_neq in Hrc. rewrite Hrc. cbn. eauto.
Qed.

(** *** Cleanup *)

(** The [finally] block always returns; it never creates a file, and a path
    it was given is gone afterwards unless [os.remove] failed on it. *)
Lemma cleanup_spec (paths : list string) :
  ∀ st : state, ∃ st' : state,
    cleanup E paths st = (Ret tt, st') ∧
    (∀ p, st_files st !! p = None → st_files st' !! p = None) ∧
    (∀ p, p ∈ paths → remove_error E p = None → st_files st' !! p = None).
Proof.
  induction paths as [|path rest IH]; intros st.
  - exists st. split_and!; [done..|]. intros p Hp. by apply elem_of_nil in Hp.
  - assert (∃ st1,
              try_except
                (let! present := os_path_exists path in
                 if present : bool then os_remove E path else ret tt)
                (λ _, ret tt) st = (Ret tt, st1) ∧
              (∀ p, st_files st !! p = None → st_files st1 !! p = None) ∧
              (remove_error E path = None → st_files st1 !! path = None))
      as (st1 & Hstep & Hmono & Hgone).
    { unfold try_except, bind, os_path_exists, os_remove, ret.
      destruct (st_files st !! path) as [content|] eqn:Hpath.
      - rewrite bool_decide_true by eauto. rewrite Hpath.
        destruct (remove_error E path) as [msg|].
        + exists st. split_and!; [done..|]. intros; discriminate.
        + eexists. split_and!; [done| |].
          * intros p Hp. simpl. destruct (decide (path = p)) as [->|Hne].
            -- apply lookup_delete_eq.
            -- by rewrite lookup_delete_ne.
          * intros _. simpl. apply lookup_delete_eq.
      - rewrite bool_decide_false by (intros [? ?]; congruence).
        exists st. split_and!; done. }
    destruct (IH st1) as (st' & Hrest & Hmono' & Hgone').
    exists st'. split_and!.
    + cbn [cleanup]. unfold bind at 1. by rewrite Hstep.
    + eauto.
    + intros p Hp Hrm. apply elem_of_cons in Hp as [-> | Hp]; eauto.
Qed.

(** C4. Whatever the outcome of the pipeline under [try] (results, or a
    fault at any stage), the request ends with that same outcome: the
    [finally] block neither replaces it nor raises, even when removing a
    file fails.  Once the request has ended, each of the four temporary
    paths is absent from the scratch files, save those on which [os.remove]
    itself failed. *)
Theorem cleanup_on_every_terminal_state (request : AlignmentRequest) (st st1 : state)
    (o : outcome (list AlignmentResult)) :
  try_except (align_body E request) align_handler st = (o, st1) →
  ∃ st' : state,
    align_lyrics E request st = (o, st') ∧
    (o ≠ Hang →
     ∀ p, p ∈ [downloaded_audio E; converted_audio E; lyrics_file E;
               alignment_output E] →
          remove_error E p = None → st_files st' !! p = None).
Proof.
  intros Hbody. unfold align_lyrics, try_finally. rewrite Hbody.
  destruct (cleanup_spec (temp_paths E) st1) as (st' & Hclean & _ & Hgone).
  destruct o as [results|e|].
  - rewrite Hclean. eauto.
  - rewrite Hclean. eauto.
  - exists st1. split; [done|]. intros Hne. by destruct Hne.
Qed.

(** An [HTTPException] raised under [try] is the outcome of the request. *)
Lemma align_lyrics_reraises (request : AlignmentRequest) (st s : state)
    (code : Z) (detail : string) :
  align_body E request st = (Raise (HTTPException code detail), s) →
  ∃ st', align_lyrics E request st = (Raise (HTTPException code detail), st').
Proof.
  intros Hbody. unfold align_lyrics, try_finally, try_except. rewrite Hbody.
  cbn [align_handler raise].
  destruct (cleanup_spec (temp_paths E) s) as (st' & -> & _). eauto.
Qed.

(** C8. A failed fetch of the audio ends the request with status 400; a
    converter or aligner that is missing, or that runs and exits with a
    non-zero status, ends it with status 500, and in the second case the
    detail ends with the text the tool wrote to its standard error. *)
Theorem failures_map_to_status_classes (request : AlignmentRequest) (st : state) :
  (∀ msg part,
     urlretrieve E (audio_url request) = FetchFailed msg part →
     ∃ st', align_lyrics E request st
            = (Raise (HTTPException 400 ("Failed to download audio: " +:+ msg)), st')) ∧
  (∀ s1,
     download_audio E (audio_url request) (downloaded_audio E) st = (Ret tt, s1) →
     (∀ msg,
        spawn E (ffmpeg_cmd (downloaded_audio E) (converted_audio E)) (st_files s1)
        = SpawnNotFound msg →
        ∃ st', align_lyrics E request st
               = (Raise (HTTPException 500 "ffmpeg not found. Please install ffmpeg."),
                  st')) ∧
     (∀ p d,
        spawn E (ffmpeg_cmd (downloaded_audio E) (converted_audio E)) (st_files s1)
        = Spawned p →
        duration p = Some d → returncode (completed p) ≠ 0 →
        ∃ st', align_lyrics E request st
               = (Raise (HTTPException 500
                           ("Audio conversion failed: " +:+ stderr (completed p))),
                  st'))) ∧
  (∀ s1 s2 s3,
     download_audio E (audio_url request) (downloaded_audio E) st = (Ret tt, s1) →
     convert_audio_to_wav E (downloaded_audio E) (converted_audio E) s1 = (Ret tt, s2) →
     write_lyrics_file E (lyrics request) (lyrics_file E) s2 = (Ret tt, s3) →
     (∀ msg,
        spawn E (aeneas_cmd E (converted_audio E) (lyrics_file E) (alignment_output E))
          (st_files s3) = SpawnNotFound msg →
        ∃ st', align_lyrics E request st
               = (Raise (HTTPException 500 "Aeneas not found. Please install aeneas."),
                  st')) ∧
     (∀ p d,
        spawn E (aeneas_cmd E (converted_audio E) (lyrics_file E) (alignment_output E))
          (st_files s3) = Spawned p →
        duration p = Some d → returncode (completed p) ≠ 0 →
        ∃ st', align_lyrics E request st
               = (Raise (HTTPException 500
                           ("Aeneas alignment failed: " +:+ stderr (completed p))),
                  st'))).
Proof.
  split_and!.
  - intros msg part Hfetch.
    destruct (download_audio_failed _ (downloaded_audio E) _ _ st Hfetch) as (s & Hs).
    eapply align_lyrics_reraises. unfold align_body, bind. by rewrite Hs.
  - intros s1 Hdl. split.
    + intros msg Hrun. destruct (convert_not_found _ _ _ _ Hrun) as (s & Hs).
      eapply align_lyrics_reraises. unfold align_body, bind. by rewrite Hdl, Hs.
    + intros p d Hrun Hd Hrc.
      destruct (convert_nonzero _ _ _ _ _ Hrun Hd Hrc) as (s & Hs).
      eapply align_lyrics_reraises. unfold align_body, bind. by rewrite Hdl, Hs.
  - intros s1 s2 s3 Hdl Hconv Hwrite. split.
    + intros msg Hrun. destruct (aeneas_not_found _ _ _ _ _ Hrun) as (s & Hs).
      eapply align_lyrics_reraises. unfold align_body, bind.
      by rewrite Hdl, Hconv, Hwrite, Hs.
    + intros p d Hrun Hd Hrc.
      destruct (aeneas_nonzero _ _ _ _ _ _ Hrun Hd Hrc) as (s & Hs).
      eapply align_lyrics_reraises. unfold align_body, bind.
      by rewrite Hdl, Hconv, Hwrite, Hs.
Qed.

(** Case analysis on what the child started with [cmd] does. *)
Ltac stage_waits cmd :=
  unfold waits_for_child, try_except, bind, subprocess_run;
  cbn [st_files add_event];
  match goal with
  | |- context [spawn ?E cmd ?fs] =>
      let Hrun := fresh "Hrun" in
      destruct (spawn E cmd fs) as [msg|msg|p] eqn:Hrun;
      [ split_and!; done
      | split_and!; done
      | let Hd := fresh "Hd" in
        let Hrc := fresh "Hrc" in
        cbn [expired];
        destruct (duration p) as [d|] eqn:Hd;
        [ destruct (Z.eqb (returncode (completed p)) 0) eqn:Hrc; cbn;
          split_and!; try done;
          [ intros ? [= <-]; congruence
          | intros ? [= <-]; congruence
          | intros ? ? [= <-] _ ?; apply Z.eqb_neq in Hrc; done ]
        | split_and!; try done; intros ? ? [= <-]; congruence ] ]
  end.

(** C7, as amended. The two external invocations made for a request (audio
    conversion and forced alignment) are started without a timeout: each
    stage waits until its child exits and never fails with a timeout. *)
Theorem request_stages_run_without_timeout (st : state) (inp txt out : string) :
  waits_for_child E st (ffmpeg_cmd inp out) (convert_audio_to_wav E inp out st) ∧
  waits_for_child E st (aeneas_cmd E inp txt out)
    (run_aeneas_alignment E inp txt out st).
Proof.
  split.
  - unfold convert_audio_to_wav. stage_waits (ffmpeg_cmd inp out).
  - unfold run_aeneas_alignment. stage_waits (aeneas_cmd E inp txt out).
Qed.

End Pipeline.

(** ** The dependency preflight *)

Lemma str_app_assoc (a b c : string) : (a +:+ b) +:+ c = a +:+ b +:+ c.
Proof.
  induction a as [|x a IH]; [done|].
  change (String x ((a +:+ b) +:+ c) = String x (a +:+ b +:+ c)). by f_equal.
Qed.

Lemma str_app_nil_r (a : string) : a +:+ "" = a.
Proof.
  induction a as [|x a IH]; [done|].
  change (String x (a +:+ "") = String x a). by f_equal.
Qed.

Lemma occurs_in_refl (s : string) : occurs_in s s.
Proof. exists "", "". simpl. by rewrite str_app_nil_r. Qed.

Lemma occurs_in_app_l (sub s t : string) : occurs_in sub s → occurs_in sub (s +:+ t).
Proof.
  intros (pre & post & ->). exists pre, (post +:+ t).
  by rewrite !str_app_assoc.
Qed.

Lemma occurs_in_app_r (sub s t : string) : occurs_in sub t → occurs_in sub (s +:+ t).
Proof.
  intros (pre & post & ->). exists (s +:+ pre), post.
  by rewrite !str_app_assoc.
Qed.

Lemma error_msg_lists (errors : list string) (f : string) :
  f ∈ errors → occurs_in ("  - " +:+ f) (error_msg errors).
Proof.
  unfold error_msg. induction errors as [|e rest IH]; intros Hin.
  - by apply elem_of_nil in Hin.
  - cbn [map String.concat]. apply elem_of_cons in Hin as [-> | Hin].
    + destruct rest as [|e' rest]; cbn [map].
      * apply occurs_in_refl.
      * apply occurs_in_app_l, occurs_in_refl.
    + destruct rest as [|e' rest]; [by apply elem_of_nil in Hin|].
      cbn [map] in *. by apply occurs_in_app_r, occurs_in_app_r, IH.
Qed.

(** The printed report shows every collected fault. *)
Lemma full_msg_lists (errors : list string) (f : string) :
  f ∈ errors → occurs_in ("  - " +:+ f) (full_msg errors).
Proof.
  intros Hin. unfold full_msg.
  apply occurs_in_app_r, occurs_in_app_r, occurs_in_app_l.
  change 60%nat with (S 59). cbn [str_repeat].
  apply occurs_in_app_l.
  do 6 apply occurs_in_app_r. apply occurs_in_app_l.
  by apply error_msg_lists.
Qed.

Section Preflight.
Context (E : Env).

Lemma check_ffmpeg_spec (errors : list string) (st : state) :
  (∀ msg, ffmpeg_probe E st ≠ SpawnOSError msg) →
  ∃ st1,
    check_ffmpeg E errors st
    = (Ret (errors ++ option_list (probe_fault "ffmpeg" (ffmpeg_probe E st)))%list, st1) ∧
    st_files st1 = files_after_probe (ffmpeg_probe E st) (st_files st).
Proof.
  intros Hos. unfold check_ffmpeg, try_except, bind, subprocess_run, ffmpeg_probe in *.
  cbn [st_files add_event].
  destruct (spawn E ["ffmpeg"; "-version"] (st_files st)) as [msg|msg|p].
  - eauto.
  - by destruct (Hos msg).
  - cbn [probe_fault files_after_probe].
    destruct (expired (Some 5%nat) (duration p)) eqn:Hexp; [eauto|].
    destruct (duration p) as [d|]; [|done].
    cbn [andb].
    destruct (Z.eqb (returncode (completed p)) 0); cbn [negb ret option_list].
    + rewrite app_nil_r. eauto.
    + eauto.
Qed.

Lemma check_espeak_spec (errors : list string) (st0 st : state) :
  st_files st = files_after_probe (ffmpeg_probe E st0) (st_files st0) →
  (∀ msg, espeak_probe E st0 ≠ SpawnOSError msg) →
  ∃ st1,
    check_espeak E errors st
    = (Ret (errors ++ option_list (probe_fault "espeak-ng" (espeak_probe E st0)))%list,
       st1).
Proof.
  intros Hfiles Hos.
  unfold check_espeak, try_except, bind, subprocess_run, espeak_probe in *.
  cbn [st_files add_event]. rewrite Hfiles.
  destruct (spawn E ["espeak-ng"; "--version"]
              (files_after_probe (ffmpeg_probe E st0) (st_files st0))) as [msg|msg|p].
  - eauto.
  - by destruct (Hos msg).
  - cbn [probe_fault].
    destruct (expired (Some 5%nat) (duration p)) eqn:Hexp; [eauto|].
    destruct (duration p) as [d|]; [|done].
    cbn [andb].
    destruct (Z.eqb (returncode (completed p)) 0); cbn [negb ret option_list].
    + rewrite app_nil_r. eauto.
    + eauto.
Qed.

Lemma check_aeneas_spec (errors : list string) (st : state) :
  check_aeneas E errors st = (Ret (errors ++ option_list (aeneas_fault E))%list, st).
Proof.
  unfold check_aeneas, aeneas_fault.
  destruct (import_aeneas E); cbn; [done|]. by rewrite app_nil_r.
Qed.

(** When both probes could be started or were found missing, the preflight
    collects the fault of each of the three probes, whether or not an
    earlier one failed: with no fault it returns, with at least one it
    prints a report in which every collected fault occurs and raises. *)
Lemma preflight_without_oserror (st : state) :
  (∀ msg, ffmpeg_probe E st ≠ SpawnOSError msg) →
  (∀ msg, espeak_probe E st ≠ SpawnOSError msg) →
  ∃ st',
    startup_event E st
    = (if bool_decide (preflight_faults E st = []) then Ret tt
       else Raise (PyExc RuntimeError
                     "Missing required dependencies. See error messages above."),
       st') ∧
    (preflight_faults E st ≠ [] →
     EvPrint true (full_msg (preflight_faults E st)) ∈ st_log st' ∧
     ∀ f, f ∈ preflight_faults E st →
          occurs_in ("  - " +:+ f) (full_msg (preflight_faults E st))).
Proof.
  intros Hos1 Hos2. unfold startup_event, check_dependencies.
  destruct (check_ffmpeg_spec [] st Hos1) as (s1 & H1 & Hfiles).
  destruct (check_espeak_spec
              ([] ++ option_list (probe_fault "ffmpeg" (ffmpeg_probe E st))) st s1
              Hfiles Hos2) as (s2 & H2).
  pose proof (check_aeneas_spec
                (([] ++ option_list (probe_fault "ffmpeg" (ffmpeg_probe E st)))
                 ++ option_list (probe_fault "espeak-ng" (espeak_probe E st))) s2) as H3.
  unfold bind at 1. rewrite H1. unfold bind at 1. rewrite H2.
  unfold bind at 1. rewrite H3.
  replace ((([] ++ option_list (probe_fault "ffmpeg" (ffmpeg_probe E st)))
            ++ option_list (probe_fault "espeak-ng" (espeak_probe E st)))
           ++ option_list (aeneas_fault E))%list
    with (preflight_faults E st)
    by (unfold preflight_faults; by rewrite app_nil_l, app_assoc).
  generalize (preflight_faults E st). intros faults.
  case_bool_decide as Hfaults; cbn [negb].
  - unfold print. eexists. split; [done|]. done.
  - unfold bind, print, raise. eexists. split; [done|]. intros _. split.
    + cbn [st_log add_event]. apply elem_of_app. right. by left.
    + intros f Hf. by apply full_msg_lists.
Qed.

End Preflight.

(** * The model at work

    The scenarios of the specification, run on the concrete worlds. *)

Import Scenario.

Example two_lines_scenario :
  (post_align healthy url two_lines st0).1 = Some (Response200 two_results).
Proof. vm_compute. reflexivity. Qed.

Example lyric_file_is_stripped :
  lyrics_text ["haru"; " yume "] = "haru" +:+ LF +:+ "yume" +:+ LF.
Proof. vm_compute. reflexivity. Qed.

Example failed_fetch_scenario :
  (align_lyrics (world (FetchFailed "HTTP Error 404: Not Found" None) tools_ok
                   (λ _, None) None) two_lines_request st0).1
  = Raise (HTTPException 400 "Failed to download audio: HTTP Error 404: Not Found").
Proof. vm_compute. reflexivity. Qed.

Example failed_removal_keeps_outcome :
  (post_align (world (Fetched "mp3") tools_ok (λ _, Some "Permission denied") None)
     url two_lines st0).1
  = Some (Response200 two_results).
Proof. vm_compute. reflexivity. Qed.

Example multiline_line_scenario :
  validate_lyrics (JArr [JStr "a"; JStr ("b" +:+ LF +:+ "c")])
  = Err (PyExc ValueError (multiline_error 1)).
Proof. vm_compute. reflexivity. Qed.

(** ** Witnesses and counterexamples *)

Lemma post_align_success_matches_lines_witness :
  ∃ st',
    post_align healthy url two_lines st0 = (Some (Response200 two_results), st') ∧
    ∃ lines : list string,
      two_lines = JArr (JStr <$> lines) ∧
      length two_results = length lines ∧
      line_index <$> two_results = Z.of_nat <$> seq 1 (length lines) ∧
      text <$> two_results = lines.
Proof.
  eexists. split.
  - vm_compute. reflexivity.
  - eapply (post_align_success_matches_lines healthy url two_lines st0).
    vm_compute. reflexivity.
Defined.

Lemma fragment_count_mismatch_is_fatal_witness :
  parse_aeneas_output healthy {[ "out.json" := "two" ]} "out.json" ["only one line"]
  = Err (HTTPException 500 "Alignment mismatch: 2 fragments for 1 lyrics").
Proof.
  refine (proj1 (fragment_count_mismatch_is_fatal healthy {[ "out.json" := "two" ]}
                   "out.json" ["only one line"] two_fragments
                   (JArr [direct float_zero (fl 5 (-1)); direct (fl 5 (-1)) (fl 5 0)])
                   2 _ _ _) _).
  - vm_compute. reflexivity.
  - reflexivity.
  - reflexivity.
  - simpl. lia.
Defined.

(** C3, counterexample. The engine reports the pair (5.0, 2.0) for the only
    line; the reconciliation succeeds and its result has [end < start]. *)
Lemma backwards_times_counterexample :
  parse_aeneas_output healthy {[ "out.json" := "backwards" ]} "out.json" ["a"]
  = Ok [ {| line_index := 1; text := "a"; start := fl 5 0; end_ := fl 2 0 |} ] ∧
  float_le (fl 5 0) (fl 2 0) = false.
Proof. split; vm_compute; reflexivity. Qed.

Lemma result_times_are_the_fragment_times_witness :
  parse_aeneas_output MoreScenarios.reading_ints {[ "out.json" := "ints" ]}
    "out.json" ["a"]
  = Ok [ {| line_index := 1; text := "a"; start := fl 1 0; end_ := fl 3 0 |} ] ∧
  ∃ kvs, dict_lookup "begin" kvs = Some (JInt 1) ∧
         dict_lookup "end" kvs = Some (JInt 3) ∧
         py_float MoreScenarios.reading_ints (JInt 1) = Ok (fl 1 0) ∧
         py_float MoreScenarios.reading_ints (JInt 3) = Ok (fl 3 0).
Proof.
  assert (parse_aeneas_output MoreScenarios.reading_ints {[ "out.json" := "ints" ]}
            "out.json" ["a"]
          = Ok [ {| line_index := 1; text := "a"; start := fl 1 0; end_ := fl 3 0 |} ])
    as Hparse by (vm_compute; reflexivity).
  split; [exact Hparse|].
  destruct (result_times_are_the_fragment_times MoreScenarios.reading_ints _ _ _ _
              Hparse) as (data & fragments & items & Hread & Hget & Hiter & Hall).
  destruct (Hall 0%nat _ eq_refl) as (kvs & Hitem & _ & Hshape & _).
  vm_compute in Hread. injection Hread as <-.
  vm_compute in Hget. injection Hget as <-.
  vm_compute in Hiter. injection Hiter as <-.
  simpl in Hitem. injection Hitem as <-.
  destruct Hshape as [(b & e & Hb & He & Hs & Ht) | ([Hn|Hn] & _)];
    [|discriminate..].
  injection Hb as <-. injection He as <-.
  exists [("begin", JInt 1); ("end", JInt 3)].
  split_and!; [reflexivity|reflexivity|exact Hs|exact Ht].
Defined.

Lemma cleanup_on_every_terminal_state_witness :
  ∃ st',
    align_lyrics broken_converter two_lines_request st0
    = (Raise (HTTPException 500 "Audio conversion failed: boom"), st') ∧
    st_files st' !! "/tmp/audio_u1" = None.
Proof.
  destruct (cleanup_on_every_terminal_state broken_converter two_lines_request st0
              (try_except (align_body broken_converter two_lines_request)
                 align_handler st0).2
              (Raise (HTTPException 500 "Audio conversion failed: boom")))
    as (st' & Hrun & Hgone).
  - vm_compute. reflexivity.
  - exists st'. split; [exact Hrun|].
    apply Hgone; [discriminate| |reflexivity].
    left.
Defined.


(** C7, counterexample. The converter never exits: the stage was started
    with no timeout, it does not end in a timeout failure (it does not end
    at all), and the request never gets a response. *)
Lemma hung_converter_counterexample :
  convert_audio_to_wav stuck "/tmp/audio_u1" "/tmp/converted_u1.wav" st0
  = (Hang,
     {| st_files := ∅;
        st_log := [EvSpawn (ffmpeg_cmd "/tmp/audio_u1" "/tmp/converted_u1.wav") None] |}) ∧
  (post_align stuck url two_lines st0).1 = None.
Proof. split; vm_compute; reflexivity. Qed.

Lemma validated_lyrics_never_empty_witness :
  new_AlignmentRequest healthy url two_lines = Ok two_lines_request ∧
  lyrics two_lines_request ≠ [].
Proof.
  assert (new_AlignmentRequest healthy url two_lines = Ok two_lines_request) as Hreq
    by (vm_compute; reflexivity).
  split; [exact Hreq|].
  exact (proj1 (validated_lyrics_never_empty healthy url two_lines two_lines_request Hreq)).
Defined.


Lemma failures_map_to_status_classes_witness :
  ∃ st',
    align_lyrics broken_converter two_lines_request st0
    = (Raise (HTTPException 500 "Audio conversion failed: boom"), st').
Proof.
  destruct (failures_map_to_status_classes broken_converter two_lines_request st0)
    as (_ & Hconvert & _).
  edestruct Hconvert as [_ Hnonzero]; [vm_compute; reflexivity|].
  edestruct Hnonzero as (st' & Hrun);
    [vm_compute; reflexivity | reflexivity | discriminate |].
  exists st'. exact Hrun.
Defined.

Lemma request_stages_run_without_timeout_witness :
  (convert_audio_to_wav stuck "/tmp/audio_u1" "/tmp/converted_u1.wav" st0).1 = Hang.
Proof.
  destruct (request_stages_run_without_timeout stuck st0 "/tmp/audio_u1" "" 
              "/tmp/converted_u1.wav") as [(_ & _ & Hhang & _) _].
  eapply Hhang; reflexivity.
Defined.

(** * Further properties of the code *)

(** ** The validator *)

Lemma validate_lines_skip (pre : list string) (rest : list json) (i0 : nat) :
  Forall (λ s, str_contains LF s = false) pre →
  validate_lines i0 ((JStr <$> pre) ++ rest)%list
  = validate_lines (i0 + length pre) rest.
Proof.
  revert i0. induction pre as [|s pre IH]; intros i0 Hpre.
  - simpl. by rewrite Nat.add_0_r.
  - apply Forall_cons in Hpre as [Hs Hpre]. cbn [fmap list_fmap app validate_lines].
    rewrite Hs. change (list_fmap string json JStr pre) with (JStr <$> pre).
    rewrite (IH (S i0) Hpre). f_equal. simpl. lia.
Qed.

Lemma validate_lines_accepts (l : list json) (i0 : nat) :
  validate_lines i0 l = Ok tt ↔
  ∃ lines, l = JStr <$> lines ∧ Forall (λ s, str_contains LF s = false) lines.
Proof.
  split.
  - revert i0. induction l as [|x l IH]; intros i0 H.
    + exists []. done.
    + simpl in H. destruct x; try discriminate.
      destruct (str_contains LF s) eqn:Hs; [discriminate|].
      apply IH in H as (lines & -> & Hall).
      exists (s :: lines). split; [done|]. by constructor.
  - intros (lines & -> & Hall).
    rewrite <- (app_nil_r (JStr <$> lines)). by rewrite validate_lines_skip.
Qed.

(** X1. The validator accepts exactly the non-empty lists whose elements
    are all strings without a newline, and hands the value back unchanged;
    in particular empty and blank lines are accepted. *)
Theorem validate_lyrics_accepts_iff (v v' : json) :
  validate_lyrics v = Ok v' ↔
  v' = v ∧ ∃ lines, v = JArr (JStr <$> lines) ∧ lines ≠ [] ∧
                    Forall (λ s, str_contains LF s = false) lines.
Proof.
  split.
  - intros H. apply validate_lyrics_Ok in H as (-> & l & -> & Hne & Hlines).
    split; [done|]. apply validate_lines_accepts in Hlines as (lines & -> & Hall).
    exists lines. split_and!; [done| |done]. intros ->. done.
  - intros (-> & lines & -> & Hne & Hall).
    unfold validate_lyrics, truthy.
    rewrite bool_decide_false by (by destruct lines).
    cbn [negb].
    assert (validate_lines 0 (JStr <$> lines) = Ok tt) as ->; [|done].
    apply validate_lines_accepts. eauto.
Qed.

(** X2. The validator stops at the first element that is not a string or
    that contains a newline, whatever follows it, and its message carries the
    index of that element (and, for a non-string, the name of its type). *)
Theorem validate_lyrics_first_offender (pre : list string) (x : json)
    (post : list json) :
  Forall (λ s, str_contains LF s = false) pre →
  (∀ s, x = JStr s → str_contains LF s = true) →
  validate_lyrics (JArr ((JStr <$> pre) ++ x :: post))
  = Err (PyExc ValueError
           match x with
           | JStr _ =>
               "lyrics[" +:+ pretty (length pre)
               +:+ "] appears to be a multiline string. "
               +:+ "Each item in lyrics should be a single line. "
               +:+ "Split multiline strings into separate list items."
           | _ => "lyrics[" +:+ pretty (length pre) +:+ "] must be a string, got "
                  +:+ type_name x
           end).
Proof.
  intros Hpre Hx. unfold validate_lyrics, truthy.
  rewrite bool_decide_false by (by destruct pre).
  cbn [negb]. rewrite validate_lines_skip by done. cbn [Nat.add validate_lines].
  destruct x; try done.
  by rewrite (Hx s eq_refl).
Qed.

Lemma validate_lyrics_first_offender_witness :
  validate_lyrics (JArr [JStr "a"; JInt 7; JStr ("b" +:+ LF)])
  = Err (PyExc ValueError "lyrics[1] must be a string, got int") ∧
  validate_lyrics (JArr [JStr "a"; JStr "b"; JStr ("c" +:+ LF +:+ "d"); JInt 7])
  = Err (PyExc ValueError
           "lyrics[2] appears to be a multiline string. Each item in lyrics should be a single line. Split multiline strings into separate list items.").
Proof.
  split.
  - refine (validate_lyrics_first_offender ["a"] (JInt 7) [JStr ("b" +:+ LF)] _ _).
    + repeat constructor.
    + intros s. discriminate.
  - refine (validate_lyrics_first_offender ["a"; "b"] (JStr ("c" +:+ LF +:+ "d"))
              [JInt 7] _ _).
    + repeat constructor.
    + intros s [= <-]. reflexivity.
Defined.

(** ** The lyric file *)

Lemma str_app_cons (c : ascii) (s t : string) :
  String c s +:+ t = String c (s +:+ t).
Proof. reflexivity. Qed.











(** ** More on the reconciler *)

Section ReconcilerMore.
Context (E : Env).

Lemma parse_fragments_complete (ls : list string) (times : nat → pyfloat * pyfloat)
    (fragments : list json) :
  ∀ (idx : nat) (results : list AlignmentResult),
    (idx + length fragments = length ls)%nat →
    (∀ k fragment, fragments !! k = Some fragment →
                   fragment_times E (idx + k) fragment = Ok (times (idx + k)%nat)) →
    parse_fragments E ls idx fragments results
    = Ok (results ++ imap (λ k, result_at times (idx + k)) (drop idx ls))%list.
Proof.
  induction fragments as [|fragment rest IH]; intros idx results Hlen Htimes.
  - simpl in *. rewrite drop_ge by lia. by rewrite app_nil_r.
  - cbn [parse_fragments].
    pose proof (Htimes 0%nat fragment eq_refl) as H0. rewrite Nat.add_0_r in H0.
    rewrite H0. cbn [result_bind].
    destruct (ls !! idx) as [t|] eqn:Hidx;
      [|apply lookup_ge_None in Hidx; simpl in Hlen; lia].
    cbn [result_bind]. rewrite IH.
    + rewrite (drop_S _ _ _ Hidx). cbn [imap]. rewrite <- app_assoc.
      do 2 f_equal. cbn [app]. f_equal.
      * unfold result_at. by rewrite Nat.add_0_r.
      * apply imap_ext. intros k x _. simpl. f_equal. lia.
    + simpl in Hlen. lia.
    + intros k f Hk. replace (S idx + k)%nat with (idx + S k)%nat by lia.
      by apply Htimes.
Qed.

(** X4. When the output file decodes to an object whose fragments are as
    many as the lines and every fragment yields its times, the reconciler
    succeeds, and its result is the list of records numbered from 1 that
    pair each line with the times of the fragment at the same position. *)
Theorem parse_aeneas_output_complete (files : gmap string string) (path : string)
    (ls : list string) (data fragments : json) (items : list json)
    (times : nat → pyfloat * pyfloat) :
  read_json E files path = Ok data →
  py_get data "fragments" (JArr []) = Ok fragments →
  py_len fragments = Ok (length ls) →
  py_iter fragments = Ok items →
  (∀ k fragment, items !! k = Some fragment →
                 fragment_times E k fragment = Ok (times k)) →
  parse_aeneas_output E files path ls = Ok (imap (result_at times) ls).
Proof.
  intros Hread Hget Hlen Hiter Htimes. unfold parse_aeneas_output.
  rewrite Hread. cbn [result_bind]. rewrite Hget. cbn [result_bind].
  rewrite Hlen. cbn [result_bind]. rewrite Nat.eqb_refl. cbn [negb].
  rewrite Hiter. cbn [result_bind].
  rewrite (parse_fragments_complete ls times); [done| |done].
  simpl. eapply py_iter_length; eauto.
Qed.

Lemma parse_fragments_first_failure (ls : list string) (bad : json)
    (post : list json) (err : exn) (pre : list json) :
  ∀ (idx : nat) (results : list AlignmentResult),
    (idx + length pre ≤ length ls)%nat →
    (∀ k fragment, pre !! k = Some fragment →
                   ∃ t, fragment_times E (idx + k) fragment = Ok t) →
    fragment_times E (idx + length pre) bad = Err err →
    parse_fragments E ls idx (pre ++ bad :: post) results = Err err.
Proof.
  induction pre as [|fragment pre IH]; intros idx results Hlen Hpre Hbad.
  - simpl in *. rewrite Nat.add_0_r in Hbad. by rewrite Hbad.
  - cbn [app parse_fragments].
    destruct (Hpre 0%nat fragment eq_refl) as (t & Ht). rewrite Nat.add_0_r in Ht.
    rewrite Ht. cbn [result_bind].
    destruct (ls !! idx) as [line|] eqn:Hidx;
      [|apply lookup_ge_None in Hidx; simpl in Hlen; lia].
    cbn [result_bind]. apply IH.
    + simpl in Hlen. lia.
    + intros k f Hk. replace (S idx + k)%nat with (idx + S k)%nat by lia.
      by apply Hpre.
    + replace (S idx + length pre)%nat with (idx + length (fragment :: pre))%nat
        by (simpl; lia). done.
Qed.

(** X5. The reconciliation fails with the error of the first fragment that
    yields no times, whatever the fragments after it hold: no result for the
    earlier fragments is returned. *)
Theorem parse_aeneas_output_first_failure (files : gmap string string)
    (path : string) (ls : list string) (data fragments : json)
    (pre post : list json) (bad : json) (err : exn) :
  read_json E files path = Ok data →
  py_get data "fragments" (JArr []) = Ok fragments →
  py_len fragments = Ok (length ls) →
  py_iter fragments = Ok (pre ++ bad :: post)%list →
  (∀ k fragment, pre !! k = Some fragment →
                 ∃ t, fragment_times E k fragment = Ok t) →
  fragment_times E (length pre) bad = Err err →
  parse_aeneas_output E files path ls = Err err.
Proof.
  intros Hread Hget Hlen Hiter Hpre Hbad. unfold parse_aeneas_output.
  rewrite Hread. cbn [result_bind]. rewrite Hget. cbn [result_bind].
  rewrite Hlen. cbn [result_bind]. rewrite Nat.eqb_refl. cbn [negb].
  rewrite Hiter. cbn [result_bind].
  apply parse_fragments_first_failure; [|done..].
  pose proof (py_iter_length _ _ _ Hlen Hiter) as Hn.
  rewrite length_app in Hn. simpl. lia.
Qed.

(** X6. An output object without a [fragments] key counts as zero
    fragments: the reconciliation of an empty list of lines returns the empty
    list, and that of any other list fails with the mismatch fault. *)
Theorem missing_fragments_key_is_zero_fragments (files : gmap string string)
    (path : string) (ls : list string) (kvs : list (string * json)) :
  read_json E files path = Ok (JObj kvs) →
  dict_lookup "fragments" kvs = None →
  parse_aeneas_output E files path ls
  = if bool_decide (ls = []) then Ok []
    else Err (HTTPException 500
                ("Alignment mismatch: 0 fragments for " +:+ pretty (length ls)
                 +:+ " lyrics")).
Proof.
  intros Hread Hkey. unfold parse_aeneas_output. rewrite Hread.
  cbn [result_bind py_get]. rewrite Hkey. cbn [default from_option id result_bind py_len length].
  destruct ls as [|line ls]; [done|].
  rewrite bool_decide_false by done. done.
Qed.

End ReconcilerMore.

Section FragmentTimes.
Context (E : Env).

(** Without a direct pair, the times come from the first and the last
    element of a non-empty [lines] list. *)
Lemma fragment_times_fallback (idx : nat) (kvs : list (string * json))
    (subs : list json) (x y : json) :
  dict_lookup "begin" kvs = None ∨ dict_lookup "end" kvs = None →
  dict_lookup "lines" kvs = Some (JArr subs) →
  head subs = Some x →
  last subs = Some y →
  fragment_times E idx (JObj kvs)
  = (let? b := py_get x "begin" (JInt 0) in
     let? s := py_float E b in
     let? e := py_get y "end" (JInt 0) in
     let? t := py_float E e in
     Ok (s, t)).
Proof.
  intros Hpair Hlines Hhead Hlast.
  assert (truthy (JArr subs) = true) as Htruthy by (by destruct subs).
  unfold fragment_times. cbn [py_in result_bind].
  destruct Hpair as [Hb|He];
    [rewrite Hb | rewrite He; destruct (dict_lookup "begin" kvs)];
    cbn [result_bind py_get]; rewrite Hlines;
    cbn [default from_option id result_bind]; rewrite Htruthy; cbn [negb];
    unfold py_subscript_end; rewrite Hhead, Hlast; done.
Qed.

(** X7. A fragment that carries both [begin] and [end] is timed by these
    two values alone: whatever else it holds (its [lines] included) and its
    position play no part, and when [begin] cannot be converted the fragment
    fails without the nested records being tried. *)
Theorem direct_pair_takes_precedence (idx : nat) (kvs : list (string * json))
    (b e : json) :
  dict_lookup "begin" kvs = Some b →
  dict_lookup "end" kvs = Some e →
  fragment_times E idx (JObj kvs)
  = fragment_times E 0 (JObj [("begin", b); ("end", e)]) ∧
  ∀ err, py_float E b = Err err → fragment_times E idx (JObj kvs) = Err err.
Proof.
  intros Hb He. unfold fragment_times. simpl. rewrite Hb, He. simpl.
  split; [done|]. by intros err ->.
Qed.

(** X8. A sub-line record without [begin] (for the first) or without [end]
    (for the last) contributes the time 0.0. *)
Theorem nested_missing_times_default_to_zero (idx : nat)
    (kvs first last_ : list (string * json)) (subs : list json) :
  dict_lookup "begin" kvs = None ∨ dict_lookup "end" kvs = None →
  dict_lookup "lines" kvs = Some (JArr subs) →
  head subs = Some (JObj first) →
  last subs = Some (JObj last_) →
  (dict_lookup "begin" first = None →
   ∀ e t, dict_lookup "end" last_ = Some e → py_float E e = Ok t →
          fragment_times E idx (JObj kvs) = Ok (float_zero, t)) ∧
  (dict_lookup "end" last_ = None →
   ∀ b s, dict_lookup "begin" first = Some b → py_float E b = Ok s →
          fragment_times E idx (JObj kvs) = Ok (s, float_zero)) ∧
  (dict_lookup "begin" first = None → dict_lookup "end" last_ = None →
   fragment_times E idx (JObj kvs) = Ok (float_zero, float_zero)).
Proof.
  intros Hpair Hlines Hhead Hlast.
  rewrite (fragment_times_fallback idx kvs subs _ _ Hpair Hlines Hhead Hlast).
  cbn [py_get]. split_and!.
  - intros -> e t -> Ht. cbn. by rewrite Ht.
  - intros -> b s -> Hs. cbn. by rewrite Hs.
  - by intros -> ->.
Qed.

(** X9. Only the first and the last sub-line record matter: the records
    between them can be replaced by any others without changing the outcome,
    and a single record supplies both times. *)
Theorem nested_times_ignore_middle (idx : nat) (kvs : list (string * json))
    (x y : json) (mid mid' : list json) :
  dict_lookup "begin" kvs = None ∨ dict_lookup "end" kvs = None →
  (dict_lookup "lines" kvs = Some (JArr (x :: mid ++ [y])) →
   fragment_times E idx (JObj kvs)
   = fragment_times E idx (JObj [("lines", JArr (x :: mid' ++ [y]))])) ∧
  (dict_lookup "lines" kvs = Some (JArr [x]) →
   fragment_times E idx (JObj kvs)
   = fragment_times E idx (JObj [("lines", JArr [x; x])])).
Proof.
  intros Hpair. split; intros Hlines.
  - rewrite (fragment_times_fallback idx kvs _ x y Hpair Hlines);
      [|done|by rewrite app_comm_cons, last_snoc].
    rewrite (fragment_times_fallback idx [("lines", JArr (x :: mid' ++ [y]))]
               (x :: mid' ++ [y]) x y);
      [done|by left|done|done|by rewrite app_comm_cons, last_snoc].
  - rewrite (fragment_times_fallback idx kvs _ x x Hpair Hlines); [|done..].
    by rewrite (fragment_times_fallback idx [("lines", JArr [x; x])] [x; x] x x);
      [|by left|..].
Qed.

End FragmentTimes.

(** ** More on the request pipeline *)

Section PipelineMore.
Context (E : Env).

Lemma fails_internally_bind {A B} (m : result A) (k : A → result B) :
  fails_internally m → (∀ a, fails_internally (k a)) →
  fails_internally (result_bind m k).
Proof. destruct m; simpl; eauto. Qed.

Lemma py_float_fails_internally (v : json) : fails_internally (py_float E v).
Proof.
  destruct v as [|b|z|f|s|l|kvs]; simpl; try done.
  - unfold float_of_Z.
    by destruct (binary_normalize float_prec float_emax (if b then 1 else 0) 0 false).
  - unfold float_of_Z. by destruct (binary_normalize float_prec float_emax z 0 false).
  - by destruct (float_of_str E s).
Qed.

Lemma py_get_fails_internally (v : json) (key : string) (dflt : json) :
  fails_internally (py_get v key dflt).
Proof. by destruct v. Qed.

Lemma py_in_fails_internally (key : string) (v : json) :
  fails_internally (py_in key v).
Proof. by destruct v. Qed.

Lemma py_getitem_str_fails_internally (v : json) (key : string) :
  fails_internally (py_getitem_str v key).
Proof. destruct v; simpl; try done. by destruct (dict_lookup key kvs). Qed.

Lemma py_subscript_end_fails_internally (from_back : bool) (v : json) :
  fails_internally (py_subscript_end from_back v).
Proof.
  destruct v as [| | | |s|l|]; simpl; try done.
  - by destruct (if from_back then last (str_chars s) else head (str_chars s)).
  - by destruct (if from_back then last l else head l).
Qed.

Lemma fragment_times_fails_internally (idx : nat) (fragment : json) :
  fails_internally (fragment_times E idx fragment).
Proof.
  unfold fragment_times.
  apply fails_internally_bind; [apply py_in_fails_internally|]. intros has_begin.
  apply fails_internally_bind.
  { destruct has_begin; [apply py_in_fails_internally|done]. }
  intros [|].
  - apply fails_internally_bind; [apply py_getitem_str_fails_internally|]. intros b.
    apply fails_internally_bind; [apply py_float_fails_internally|]. intros s.
    apply fails_internally_bind; [apply py_getitem_str_fails_internally|]. intros e.
    apply fails_internally_bind; [apply py_float_fails_internally|]. done.
  - apply fails_internally_bind; [apply py_get_fails_internally|]. intros lines.
    destruct (negb (truthy lines)); [done|].
    apply fails_internally_bind; [apply py_subscript_end_fails_internally|]. intros x.
    apply fails_internally_bind; [apply py_subscript_end_fails_internally|]. intros y.
    apply fails_internally_bind; [apply py_get_fails_internally|]. intros b.
    apply fails_internally_bind; [apply py_float_fails_internally|]. intros s.
    apply fails_internally_bind; [apply py_get_fails_internally|]. intros e.
    apply fails_internally_bind; [apply py_float_fails_internally|]. done.
Qed.

Lemma parse_fragments_fails_internally (ls : list string) (fragments : list json) :
  ∀ idx results, fails_internally (parse_fragments E ls idx fragments results).
Proof.
  induction fragments as [|fragment rest IH]; intros idx results; [done|].
  cbn [parse_fragments].
  apply fails_internally_bind; [apply fragment_times_fails_internally|]. intros t.
  apply fails_internally_bind; [by destruct (ls !! idx)|]. intros line.
  apply IH.
Qed.

Lemma parse_aeneas_output_fails_internally (files : gmap string string)
    (path : string) (ls : list string) :
  fails_internally (parse_aeneas_output E files path ls).
Proof.
  unfold parse_aeneas_output.
  apply fails_internally_bind; [by destruct (read_json E files path)|]. intros data.
  apply fails_internally_bind; [apply py_get_fails_internally|]. intros fragments.
  apply fails_internally_bind; [by destruct fragments|]. intros n.
  destruct (negb (n =? length ls)%nat); [done|].
  apply fails_internally_bind; [by destruct fragments|]. intros items.
  apply parse_fragments_fails_internally.
Qed.

(** *** What each stage can raise *)

Lemma download_audio_Raise (url path : string) (st st' : state) (e : exn) :
  download_audio E url path st = (Raise e, st') →
  ∃ msg part, urlretrieve E url = FetchFailed msg part ∧
              e = HTTPException 400 ("Failed to download audio: " +:+ msg) ∧
              filter is_spawn (st_log st') = filter is_spawn (st_log st).
Proof.
  unfold download_audio, try_except, urlretrieve_to.
  destruct (urlretrieve E url) as [msg [part|]|[part|]|content]; intros [= <- <-];
    exists msg; eexists; (split_and!; [done..|]);
    cbn [st_log add_event set_files]; by rewrite filter_app, app_nil_r.
Qed.

Lemma convert_audio_to_wav_Raise (inp out : string) (st st' : state) (e : exn) :
  convert_audio_to_wav E inp out st = (Raise e, st') → internal e.
Proof.
  unfold convert_audio_to_wav, try_except, bind, subprocess_run.
  cbn [st_files add_event].
  destruct (spawn E (ffmpeg_cmd inp out) (st_files st)) as [msg|msg|p];
    [by intros [= <- _]..|].
  cbn [expired]. destruct (duration p); [|done].
  destruct (Z.eqb (returncode (completed p)) 0); cbn; [done|].
  by intros [= <- _].
Qed.

Lemma run_aeneas_alignment_Raise (audio txt out : string) (st st' : state) (e : exn) :
  run_aeneas_alignment E audio txt out st = (Raise e, st') → internal e.
Proof.
  unfold run_aeneas_alignment, try_except, bind, subprocess_run.
  cbn [st_files add_event].
  destruct (spawn E (aeneas_cmd E audio txt out) (st_files st)) as [msg|msg|p];
    [by intros [= <- _]..|].
  cbn [expired]. destruct (duration p); [|done].
  destruct (Z.eqb (returncode (completed p)) 0); cbn; [done|].
  by intros [= <- _].
Qed.

Lemma write_lyrics_file_Raise (ls : list string) (path : string) (st st' : state)
    (e : exn) :
  write_lyrics_file E ls path st = (Raise e, st') →
  (ls = [] ∧ e = HTTPException 400 "Lyrics array cannot be empty") ∨
  (ls ≠ [] ∧ ∃ msg, open_w_error E path = Some msg ∧ e = PyExc OSError msg).
Proof.
  unfold write_lyrics_file. case_bool_decide as Hls.
  - intros [= <- _]. by left.
  - destruct (open_w_error E path) as [msg|] eqn:Hopen; [|done].
    intros [= <- _]. right. eauto.
Qed.

(** The outcome of a request is that of the part under [try]. *)
Lemma align_lyrics_outcome (request : AlignmentRequest) (st : state) :
  (align_lyrics E request st).1
  = (try_except (align_body E request) align_handler st).1.
Proof.
  unfold align_lyrics, try_finally.
  destruct (try_except (align_body E request) align_handler st) as [[r|e|] s]; [| |done];
    by destruct (cleanup_spec E (temp_paths E) s) as (s' & -> & _).
Qed.

Lemma align_body_Raise (request : AlignmentRequest) (st st' : state) (e : exn) :
  align_body E request st = (Raise e, st') →
  internal e ∨
  ∃ detail, e = HTTPException 400 detail ∧
    ((∃ msg part, urlretrieve E (audio_url request) = FetchFailed msg part) ∨
     lyrics request = []).
Proof.
  unfold align_body, bind.
  destruct (download_audio E (audio_url request) (downloaded_audio E) st)
    as [[[]|e1|] s1] eqn:H1; [| |done].
  2:{ intros [= <- _]. apply download_audio_Raise in H1 as (msg & part & Hf & -> & _).
      right. eauto 8. }
  destruct (convert_audio_to_wav E (downloaded_audio E) (converted_audio E) s1)
    as [[[]|e2|] s2] eqn:H2; [| |done].
  2:{ intros [= <- _]. left. by eapply convert_audio_to_wav_Raise. }
  destruct (write_lyrics_file E (lyrics request) (lyrics_file E) s2)
    as [[[]|e3|] s3] eqn:H3; [| |done].
  2:{ intros [= <- _]. apply write_lyrics_file_Raise in H3
        as [[Hnil ->] | (_ & msg & _ & ->)]; [right; eauto|by left]. }
  destruct (run_aeneas_alignment E (converted_audio E) (lyrics_file E)
              (alignment_output E) s3) as [[[]|e4|] s4] eqn:H4; [| |done].
  2:{ intros [= <- _]. left. by eapply run_aeneas_alignment_Raise. }
  pose proof (parse_aeneas_output_fails_internally (st_files s4) (alignment_output E)
                (lyrics request)) as Hparse.
  destruct (parse_aeneas_output E (st_files s4) (alignment_output E) (lyrics request));
    cbn; [done|].
  intros [= <- _]. by left.
Qed.

(** X10. A request ends in one of three ways: with results, never, or with
    an [HTTPException] whose status is 400 or 500 (no other exception
    leaves the handler).  Status 400 means that the audio could not be
    fetched or that the list of lines is empty; every other fault is a
    500. *)
Theorem align_lyrics_outcome_classes (request : AlignmentRequest) (st : state) :
  match (align_lyrics E request st).1 with
  | Raise (HTTPException code _) =>
      code = 500 ∨
      (code = 400 ∧
       ((∃ msg part, urlretrieve E (audio_url request) = FetchFailed msg part) ∨
        lyrics request = []))
  | Raise _ => False
  | _ => True
  end.
Proof.
  rewrite align_lyrics_outcome. unfold try_except.
  destruct (align_body E request st) as [[r|e|] s] eqn:Hbody; [done| |done].
  apply align_body_Raise in Hbody as [Hint | (detail & -> & Hwhy)].
  - destruct e; cbn in *; auto.
  - cbn. auto.
Qed.

(** *** What the cleanup touches *)

Lemma cleanup_effects (paths : list string) :
  ∀ st : state, ∃ (st' : state) (removed : list string),
    cleanup E paths st = (Ret tt, st') ∧
    st_log st' = (st_log st ++ (EvRemove <$> removed))%list ∧
    (∀ p, p ∈ removed → p ∈ paths ∧ is_Some (st_files st !! p)) ∧
    (∀ p, p ∉ paths → st_files st' !! p = st_files st !! p).
Proof.
  induction paths as [|path rest IH]; intros st.
  - exists st, []. split_and!; [done|by rewrite app_nil_r| |done].
    intros p Hp. by apply elem_of_nil in Hp.
  - assert (∃ st1 removed1,
              try_except
                (let! present := os_path_exists path in
                 if present : bool then os_remove E path else ret tt)
                (λ _, ret tt) st = (Ret tt, st1) ∧
              st_log st1 = (st_log st ++ (EvRemove <$> removed1))%list ∧
              (∀ p, p ∈ removed1 → p = path ∧ is_Some (st_files st !! p)) ∧
              (∀ p, p ≠ path → st_files st1 !! p = st_files st !! p) ∧
              (∀ p, is_Some (st_files st1 !! p) → is_Some (st_files st !! p)))
      as (st1 & removed1 & Hstep & Hlog1 & Hrem1 & Hframe1 & Hmono1).
    { unfold try_except, bind, os_path_exists, os_remove, ret.
      destruct (st_files st !! path) as [content|] eqn:Hpath.
      - rewrite bool_decide_true by eauto. rewrite Hpath.
        destruct (remove_error E path) as [msg|].
        + exists st, []. split_and!; [done|by rewrite app_nil_r| |done|done].
          intros p Hp. by apply elem_of_nil in Hp.
        + eexists _, [path]. split_and!; [done|done| | |].
          * intros p Hp. apply list_elem_of_singleton in Hp as ->. eauto.
          * intros p Hp. cbn. by rewrite lookup_delete_ne.
          * intros p. cbn. destruct (decide (path = p)) as [<-|Hne]; [by eauto|].
            by rewrite lookup_delete_ne.
      - rewrite bool_decide_false by (intros [? ?]; congruence).
        exists st, []. split_and!; [done|by rewrite app_nil_r| |done|done].
        intros p Hp. by apply elem_of_nil in Hp. }
    destruct (IH st1) as (st' & removed & Hrest & Hlog & Hrem & Hframe).
    exists st', (removed1 ++ removed)%list. split_and!.
    + cbn [cleanup]. unfold bind at 1. by rewrite Hstep.
    + by rewrite Hlog, Hlog1, fmap_app, app_assoc.
    + intros p Hp. apply elem_of_app in Hp as [Hp|Hp].
      * apply Hrem1 in Hp as [-> Hp]. split; [by left|done].
      * apply Hrem in Hp as [Hp Hsome]. split; [by right|by apply Hmono1].
    + intros p Hp. apply not_elem_of_cons in Hp as [Hne Hp].
      rewrite Hframe by done. by apply Hframe1.
Qed.

Lemma filter_is_spawn_removes (removed : list string) :
  filter is_spawn (EvRemove <$> removed) = [].
Proof. induction removed as [|p removed IH]; [done|]. cbn. exact IH. Qed.

(** X11. The files the cleanup deletes are among the four temporary paths
    of the request and existed when the pipeline ended; every other file
    is left as the pipeline left it. *)
Theorem cleanup_removes_only_request_files (request : AlignmentRequest)
    (st s1 : state) (o : outcome (list AlignmentResult)) :
  try_except (align_body E request) align_handler st = (o, s1) →
  o ≠ Hang →
  ∃ (st' : state) (removed : list string),
    align_lyrics E request st = (o, st') ∧
    st_log st' = (st_log s1 ++ (EvRemove <$> removed))%list ∧
    (∀ p, p ∈ removed → p ∈ temp_paths E ∧ is_Some (st_files s1 !! p)) ∧
    (∀ p, p ∉ temp_paths E → st_files st' !! p = st_files s1 !! p).
Proof.
  intros Hbody Ho. unfold align_lyrics, try_finally. rewrite Hbody.
  destruct (cleanup_effects (temp_paths E) s1)
    as (st' & removed & Hclean & Hlog & Hrem & Hframe).
  exists st', removed. rewrite Hclean. by destruct o.
Qed.

(** X12. When the audio cannot be fetched the request fails with status
    400 without any child process having been started, and no file other
    than the four temporary paths has changed. *)
Theorem failed_fetch_spawns_nothing (request : AlignmentRequest) (st : state)
    (msg : string) (part : option string) :
  urlretrieve E (audio_url request) = FetchFailed msg part →
  ∃ st',
    align_lyrics E request st
    = (Raise (HTTPException 400 ("Failed to download audio: " +:+ msg)), st') ∧
    filter is_spawn (st_log st') = filter is_spawn (st_log st) ∧
    (∀ p, p ∉ temp_paths E → st_files st' !! p = st_files st !! p).
Proof.
  intros Hfetch.
  assert (∃ s1,
            align_body E request st
            = (Raise (HTTPException 400 ("Failed to download audio: " +:+ msg)), s1) ∧
            filter is_spawn (st_log s1) = filter is_spawn (st_log st) ∧
            (∀ p, p ≠ downloaded_audio E → st_files s1 !! p = st_files st !! p))
    as (s1 & Hbody & Hlog1 & Hframe1).
  { unfold align_body, bind, download_audio, try_except, urlretrieve_to.
    rewrite Hfetch. destruct part as [content|]; eexists; (split_and!; [done| |]);
      cbn [st_log st_files add_event set_files].
    - by rewrite filter_app, app_nil_r.
    - intros p Hp. by rewrite lookup_insert_ne.
    - by rewrite filter_app, app_nil_r.
    - done. }
  unfold align_lyrics, try_finally, try_except. rewrite Hbody.
  cbn [align_handler raise].
  destruct (cleanup_effects (temp_paths E) s1)
    as (st' & removed & -> & Hlog & _ & Hframe).
  exists st'. split_and!; [done| |].
  - by rewrite Hlog, filter_app, filter_is_spawn_removes, app_nil_r.
  - intros p Hp. rewrite Hframe by done. apply Hframe1.
    intros ->. apply Hp. by left.
Qed.

(** *** Faults that the stages do not translate *)

Lemma align_lyrics_unexpected (request : AlignmentRequest) (st s : state) (e : exn) :
  align_body E request st = (Raise e, s) →
  (∀ code detail, e ≠ HTTPException code detail) →
  ∃ st', align_lyrics E request st
         = (Raise (HTTPException 500 ("Unexpected error: " +:+ str_exn e)), st').
Proof.
  intros Hbody Hnot. unfold align_lyrics, try_finally, try_except. rewrite Hbody.
  assert (align_handler (A := list AlignmentResult) e s
          = (Raise (HTTPException 500 ("Unexpected error: " +:+ str_exn e)), s)) as ->.
  { destruct e; try done. by destruct (Hnot status_code detail). }
  destruct (cleanup_spec E (temp_paths E) s) as (st' & -> & _). eauto.
Qed.

(** X13. A fault that no stage translates reaches the caller as status 500
    with the detail "Unexpected error: " followed by the text of the
    exception: a converter that cannot be started for a reason other than
    being absent, a lyric file that cannot be opened, an output whose top
    level is a list instead of an object. *)
Theorem untranslated_faults_are_unexpected_500 (request : AlignmentRequest)
    (st : state) :
  (∀ s1 msg,
     download_audio E (audio_url request) (downloaded_audio E) st = (Ret tt, s1) →
     spawn E (ffmpeg_cmd (downloaded_audio E) (converted_audio E)) (st_files s1)
     = SpawnOSError msg →
     ∃ st', align_lyrics E request st
            = (Raise (HTTPException 500 ("Unexpected error: " +:+ msg)), st')) ∧
  (∀ s1 s2 msg,
     download_audio E (audio_url request) (downloaded_audio E) st = (Ret tt, s1) →
     convert_audio_to_wav E (downloaded_audio E) (converted_audio E) s1 = (Ret tt, s2) →
     lyrics request ≠ [] →
     open_w_error E (lyrics_file E) = Some msg →
     ∃ st', align_lyrics E request st
            = (Raise (HTTPException 500 ("Unexpected error: " +:+ msg)), st')) ∧
  (∀ s1 s2 s3 s4 l,
     download_audio E (audio_url request) (downloaded_audio E) st = (Ret tt, s1) →
     convert_audio_to_wav E (downloaded_audio E) (converted_audio E) s1 = (Ret tt, s2) →
     write_lyrics_file E (lyrics request) (lyrics_file E) s2 = (Ret tt, s3) →
     run_aeneas_alignment E (converted_audio E) (lyrics_file E) (alignment_output E) s3
     = (Ret tt, s4) →
     read_json E (st_files s4) (alignment_output E) = Ok (JArr l) →
     ∃ st' text, align_lyrics E request st
                 = (Raise (HTTPException 500 ("Unexpected error: " +:+ text)), st')).
Proof.
  split_and!.
  - intros s1 msg Hdl Hrun.
    eapply (align_lyrics_unexpected _ _ _ (PyExc OSError msg)); [|done].
    unfold align_body, bind. rewrite Hdl.
    unfold convert_audio_to_wav, try_except, bind, subprocess_run.
    cbn [st_files add_event]. by rewrite Hrun.
  - intros s1 s2 msg Hdl Hconv Hne Hopen.
    eapply (align_lyrics_unexpected _ _ _ (PyExc OSError msg)); [|done].
    unfold align_body, bind. rewrite Hdl, Hconv.
    unfold write_lyrics_file. rewrite bool_decide_false by done. by rewrite Hopen.
  - intros s1 s2 s3 s4 l Hdl Hconv Hwrite Hrun Hread.
    destruct (align_lyrics_unexpected request st s4
                (PyExc AttributeError "'list' object has no attribute 'get'"))
      as (st' & Hst'); [|done|by eauto].
    unfold align_body, bind. rewrite Hdl, Hconv, Hwrite, Hrun.
    unfold parse_aeneas_output. by rewrite Hread.
Qed.

(** X14. A stage that spawns a tool returns normally only if the tool was
    started, exited on its own and reported status 0; the files are then
    the ones the tool left. *)
Theorem stage_success_means_exit_zero (st st' : state) (inp txt out : string) :
  (convert_audio_to_wav E inp out st = (Ret tt, st') →
   ∃ p d, spawn E (ffmpeg_cmd inp out) (st_files st) = Spawned p ∧
          duration p = Some d ∧ returncode (completed p) = 0 ∧
          st_files st' = files_after p) ∧
  (run_aeneas_alignment E inp txt out st = (Ret tt, st') →
   ∃ p d, spawn E (aeneas_cmd E inp txt out) (st_files st) = Spawned p ∧
          duration p = Some d ∧ returncode (completed p) = 0 ∧
          st_files st' = files_after p).
Proof.
  split.
  - unfold convert_audio_to_wav, try_except, bind, subprocess_run.
    cbn [st_files add_event].
    destruct (spawn E (ffmpeg_cmd inp out) (st_files st)) as [msg|msg|p]; [done..|].
    cbn [expired]. destruct (duration p) as [d|] eqn:Hd; [|done].
    destruct (Z.eqb (returncode (completed p)) 0) eqn:Hrc; cbn; [|done].
    intros [= <-]. apply Z.eqb_eq in Hrc. eauto 6.
  - unfold run_aeneas_alignment, try_except, bind, subprocess_run.
    cbn [st_files add_event].
    destruct (spawn E (aeneas_cmd E inp txt out) (st_files st)) as [msg|msg|p]; [done..|].
    cbn [expired]. destruct (duration p) as [d|] eqn:Hd; [|done].
    destruct (Z.eqb (returncode (completed p)) 0) eqn:Hrc; cbn; [|done].
    intros [= <-]. apply Z.eqb_eq in Hrc. eauto 6.
Qed.

(** X15. When every stage succeeds but the aligner's output file is
    missing or cannot be decoded, the request fails with status 500 and the
    detail "Failed to parse Aeneas output: " followed by the text of the
    error. *)
Theorem undecodable_output_is_500 (request : AlignmentRequest)
    (st s1 s2 s3 s4 : state) (e : exn) :
  download_audio E (audio_url request) (downloaded_audio E) st = (Ret tt, s1) →
  convert_audio_to_wav E (downloaded_audio E) (converted_audio E) s1 = (Ret tt, s2) →
  write_lyrics_file E (lyrics request) (lyrics_file E) s2 = (Ret tt, s3) →
  run_aeneas_alignment E (converted_audio E) (lyrics_file E) (alignment_output E) s3
  = (Ret tt, s4) →
  read_json E (st_files s4) (alignment_output E) = Err e →
  ∃ st', align_lyrics E request st
         = (Raise (HTTPException 500
                     ("Failed to parse Aeneas output: " +:+ str_exn e)), st').
Proof.
  intros Hdl Hconv Hwrite Hrun Hread.
  eapply align_lyrics_reraises.
  unfold align_body, bind. rewrite Hdl, Hconv, Hwrite, Hrun.
  unfold parse_aeneas_output. by rewrite Hread.
Qed.

End PipelineMore.

(** ** The temporary paths *)

Lemma str_app_nil_l (s : string) : "" +:+ s = s.
Proof. reflexivity. Qed.

Lemma str_length_app (a b : string) :
  String.length (a +:+ b) = (String.length a + String.length b)%nat.
Proof.
  induction a as [|c a IH]; [done|].
  rewrite str_app_cons. cbn [String.length]. by rewrite IH.
Qed.

Lemma str_app_inj_r (s a b : string) : a +:+ s = b +:+ s → a = b.
Proof.
  revert b. induction a as [|c a IH]; intros [|d b] H.
  - done.
  - apply (f_equal String.length) in H.
    rewrite str_app_nil_l, str_app_cons in H. cbn [String.length] in H.
    rewrite str_length_app in H. lia.
  - apply (f_equal String.length) in H.
    rewrite str_app_nil_l, str_app_cons in H. cbn [String.length] in H.
    rewrite str_length_app in H. lia.
  - rewrite !str_app_cons in H. injection H as -> H. f_equal. by apply IH.
Qed.

Ltac path_clash :=
  unfold downloaded_audio, converted_audio, lyrics_file, alignment_output,
    os_path_join;
  rewrite ?str_app_cons, ?str_app_nil_l;
  let H := fresh "H" in
  intros H; simplify_eq;
  repeat match goal with
         | H : _ +:+ _ = _ +:+ _ |- _ => apply str_app_inj_r in H
         end;
  try done.

(** X16. The four temporary paths of a request are pairwise distinct, and
    the paths of two requests that drew different identifiers have nothing
    in common. *)
Theorem temp_paths_do_not_collide (E1 E2 : Env) :
  NoDup (temp_paths E1) ∧
  (uuid4 E1 ≠ uuid4 E2 → ∀ p, p ∈ temp_paths E1 → p ∉ temp_paths E2).
Proof.
  split.
  - unfold temp_paths. repeat constructor; rewrite ?not_elem_of_cons;
      split_and?; try (by apply not_elem_of_nil); path_clash.
  - intros Hid p Hp1 Hp2. unfold temp_paths in *.
    repeat (apply elem_of_cons in Hp1 as [->|Hp1]);
      [..|by apply elem_of_nil in Hp1];
      repeat (apply elem_of_cons in Hp2 as [Hp2|Hp2]);
      try (by apply elem_of_nil in Hp2);
      revert Hp2; path_clash.
Qed.

(** ** More on the dependency preflight *)

Section PreflightMore.
Context (E : Env).

Lemma check_ffmpeg_cases (errors : list string) (st : state) :
  ∃ st1,
    st_log st1 = (st_log st ++ [EvSpawn ["ffmpeg"; "-version"] (Some 5%nat)])%list ∧
    st_files st1 = files_after_probe (ffmpeg_probe E st) (st_files st) ∧
    check_ffmpeg E errors st
    = (match ffmpeg_probe E st with
       | SpawnOSError msg => Raise (PyExc OSError msg)
       | r => Ret (errors ++ option_list (probe_fault "ffmpeg" r))%list
       end, st1).
Proof.
  unfold check_ffmpeg, try_except, bind, subprocess_run, ffmpeg_probe.
  cbn [st_files add_event].
  destruct (spawn E ["ffmpeg"; "-version"] (st_files st)) as [msg|msg|p];
    [by exists (add_event (EvSpawn ["ffmpeg"; "-version"] (Some 5%nat)) st)..|].
  exists (set_files (files_after p)
            (add_event (EvSpawn ["ffmpeg"; "-version"] (Some 5%nat)) st)).
  split_and!; [done..|]. cbn [probe_fault].
  destruct (expired (Some 5%nat) (duration p)) eqn:Hexp; [done|].
  destruct (duration p) as [d|]; [|done]. cbn [andb].
  destruct (Z.eqb (returncode (completed p)) 0); cbn [negb ret option_list];
    by rewrite ?app_nil_r.
Qed.

Lemma check_espeak_cases (errors : list string) (st : state) :
  ∃ st1,
    st_log st1 = (st_log st ++ [EvSpawn ["espeak-ng"; "--version"] (Some 5%nat)])%list ∧
    check_espeak E errors st
    = (match spawn E ["espeak-ng"; "--version"] (st_files st) with
       | SpawnOSError msg => Raise (PyExc OSError msg)
       | r => Ret (errors ++ option_list (probe_fault "espeak-ng" r))%list
       end, st1).
Proof.
  unfold check_espeak, try_except, bind, subprocess_run.
  cbn [st_files add_event].
  destruct (spawn E ["espeak-ng"; "--version"] (st_files st)) as [msg|msg|p];
    [by exists (add_event (EvSpawn ["espeak-ng"; "--version"] (Some 5%nat)) st)..|].
  exists (set_files (files_after p)
            (add_event (EvSpawn ["espeak-ng"; "--version"] (Some 5%nat)) st)).
  split_and!; [done|]. cbn [probe_fault].
  destruct (expired (Some 5%nat) (duration p)) eqn:Hexp; [done|].
  destruct (duration p) as [d|]; [|done]. cbn [andb].
  destruct (Z.eqb (returncode (completed p)) 0); cbn [negb ret option_list];
    by rewrite ?app_nil_r.
Qed.

(** X17. The preflight always comes to an end, even when a probed tool
    never exits: it returns, or it raises the [RuntimeError] that reports the
    faults, or it raises the [OSError] with which a probe failed to start. *)
Theorem check_dependencies_always_ends (st : state) :
  match (check_dependencies E st).1 with
  | Ret _ => True
  | Raise e =>
      e = PyExc RuntimeError "Missing required dependencies. See error messages above."
      ∨ ∃ msg, e = PyExc OSError msg
  | Hang => False
  end.
Proof.
  unfold check_dependencies.
  destruct (check_ffmpeg_cases [] st) as (s1 & _ & _ & H1).
  unfold bind at 1. rewrite H1.
  destruct (ffmpeg_probe E st) as [m1|m1|p1]; [|cbn; by eauto|].
  all: match goal with
       | |- context [check_espeak E ?errs] =>
           destruct (check_espeak_cases errs s1) as (s2 & _ & H2);
           unfold bind at 1; rewrite H2;
           destruct (spawn E ["espeak-ng"; "--version"] (st_files s1))
             as [m2|m2|p2]; [|cbn; by eauto|]
       end.
  all: unfold bind at 1, check_aeneas;
    destruct (import_aeneas E); cbn [ret];
    match goal with
    | |- context [bool_decide (?l = [])] => destruct (bool_decide (l = []))
    end; cbn [negb]; unfold bind, print, raise; cbn [fst]; auto.
Qed.

(** X18. When a probe cannot be started for a reason other than the binary
    being absent, the preflight raises that [OSError] at once: nothing is
    printed, and a fault collected from an earlier probe is not reported. *)
Theorem probe_oserror_aborts_preflight (st : state) (msg : string) :
  (ffmpeg_probe E st = SpawnOSError msg →
   ∃ st', check_dependencies E st = (Raise (PyExc OSError msg), st') ∧
          st_log st'
          = (st_log st ++ [EvSpawn ["ffmpeg"; "-version"] (Some 5%nat)])%list) ∧
  ((∀ m, ffmpeg_probe E st ≠ SpawnOSError m) →
   espeak_probe E st = SpawnOSError msg →
   ∃ st', check_dependencies E st = (Raise (PyExc OSError msg), st') ∧
          filter is_print (st_log st') = filter is_print (st_log st)).
Proof.
  split.
  - intros Hprobe. unfold check_dependencies.
    destruct (check_ffmpeg_cases [] st) as (s1 & Hlog & _ & H1).
    unfold bind at 1. rewrite H1, Hprobe. eauto.
  - intros Hfirst Hprobe. unfold check_dependencies.
    destruct (check_ffmpeg_cases [] st) as (s1 & Hlog1 & Hfiles & H1).
    unfold bind at 1. rewrite H1.
    assert (spawn E ["espeak-ng"; "--version"] (st_files s1) = SpawnOSError msg)
      as Hsecond by (by rewrite Hfiles).
    destruct (ffmpeg_probe E st) as [m1|m1|p1]; [|by destruct (Hfirst m1)|].
    all: match goal with
         | |- context [check_espeak E ?errs] =>
             destruct (check_espeak_cases errs s1) as (s2 & Hlog2 & H2);
             unfold bind at 1; rewrite H2, Hsecond
         end.
    all: exists s2; split; [done|];
      rewrite Hlog2, Hlog1, !filter_app; cbn; by rewrite !app_nil_r.
Qed.

(** C9, as amended. The preflight probes the tools in order.  As long as
    every probe could be started or was found missing, it runs all three
    probes and collects the fault of each one (binary missing, non-zero
    exit, timeout) rather than stopping at the first: with no fault the
    startup hook returns and the service starts; with at least one it prints
    a report in which every collected fault occurs and raises, so the
    service does not start.  A probe that fails to start for another reason
    ends the preflight at once with that [OSError]: the service does not
    start either, but nothing is printed. *)
Theorem preflight_collects_every_fault (st : state) :
  ((∀ msg, ffmpeg_probe E st ≠ SpawnOSError msg) →
   (∀ msg, espeak_probe E st ≠ SpawnOSError msg) →
   ∃ st',
     startup_event E st
     = (if bool_decide (preflight_faults E st = []) then Ret tt
        else Raise (PyExc RuntimeError
                      "Missing required dependencies. See error messages above."),
        st') ∧
     (preflight_faults E st ≠ [] →
      EvPrint true (full_msg (preflight_faults E st)) ∈ st_log st' ∧
      ∀ f, f ∈ preflight_faults E st →
           occurs_in ("  - " +:+ f) (full_msg (preflight_faults E st)))) ∧
  (∀ msg,
     ffmpeg_probe E st = SpawnOSError msg ∨
     ((∀ m, ffmpeg_probe E st ≠ SpawnOSError m) ∧
      espeak_probe E st = SpawnOSError msg) →
     ∃ st', startup_event E st = (Raise (PyExc OSError msg), st') ∧
            filter is_print (st_log st') = filter is_print (st_log st)).
Proof.
  split; [apply preflight_without_oserror|].
  intros msg Hcase. unfold startup_event, check_dependencies.
  destruct (check_ffmpeg_cases [] st) as (s1 & Hlog1 & Hfiles & H1).
  unfold bind at 1. rewrite H1.
  destruct Hcase as [Hprobe | [Hfirst Hprobe]].
  - rewrite Hprobe. exists s1. split; [done|].
    rewrite Hlog1, filter_app. cbn. by rewrite app_nil_r.
  - assert (spawn E ["espeak-ng"; "--version"] (st_files s1) = SpawnOSError msg)
      as Hsecond by (by rewrite Hfiles).
    destruct (ffmpeg_probe E st) as [m1|m1|p1]; [|by destruct (Hfirst m1)|].
    all: match goal with
         | |- context [check_espeak E ?errs] =>
             destruct (check_espeak_cases errs s1) as (s2 & Hlog2 & H2);
             unfold bind at 1; rewrite H2, Hsecond
         end.
    all: exists s2; split; [done|];
      rewrite Hlog2, Hlog1, !filter_app; cbn; by rewrite !app_nil_r.
Qed.

End PreflightMore.

(** ** Witnesses of the further properties *)

Import MoreScenarios.

Lemma parse_aeneas_output_complete_witness :
  parse_aeneas_output healthy {[ "out.json" := "two" ]} "out.json" ["haru"; " yume "]
  = Ok two_results.
Proof.
  refine (parse_aeneas_output_complete healthy {[ "out.json" := "two" ]} "out.json"
            ["haru"; " yume "] two_fragments
            (JArr [direct float_zero (fl 5 (-1)); direct (fl 5 (-1)) (fl 5 0)])
            [direct float_zero (fl 5 (-1)); direct (fl 5 (-1)) (fl 5 0)]
            two_times _ _ _ _ _).
  - vm_compute. reflexivity.
  - reflexivity.
  - reflexivity.
  - reflexivity.
  - intros [|[|k]] fragment Hk; simpl in Hk; [| |discriminate];
      injection Hk as <-; vm_compute; reflexivity.
Defined.

Lemma parse_aeneas_output_first_failure_witness :
  parse_aeneas_output reading {[ "out.json" := "second empty" ]} "out.json" ["a"; "b"]
  = Err (HTTPException 500 "Fragment 2 has no timing information").
Proof.
  refine (parse_aeneas_output_first_failure reading {[ "out.json" := "second empty" ]}
            "out.json" ["a"; "b"] second_fragment_empty
            (JArr [direct float_zero (fl 5 (-1)); JObj []])
            [direct float_zero (fl 5 (-1))] [] (JObj []) _ _ _ _ _ _ _).
  - vm_compute. reflexivity.
  - reflexivity.
  - reflexivity.
  - reflexivity.
  - intros [|k] fragment Hk; simpl in Hk; [|discriminate].
    injection Hk as <-. eexists. vm_compute. reflexivity.
  - vm_compute. reflexivity.
Defined.

Lemma missing_fragments_key_is_zero_fragments_witness :
  parse_aeneas_output reading {[ "out.json" := "no key" ]} "out.json" ["a"]
  = Err (HTTPException 500 "Alignment mismatch: 0 fragments for 1 lyrics").
Proof.
  refine (missing_fragments_key_is_zero_fragments reading {[ "out.json" := "no key" ]}
            "out.json" ["a"] [] _ _).
  - vm_compute. reflexivity.
  - reflexivity.
Defined.

Lemma direct_pair_takes_precedence_witness :
  fragment_times healthy 3
    (JObj [("begin", JFloat (fl 1 0)); ("lines", JStr "junk"); ("end", JFloat (fl 2 0))])
  = Ok (fl 1 0, fl 2 0).
Proof.
  refine (eq_trans
            (proj1 (direct_pair_takes_precedence healthy 3
                      [("begin", JFloat (fl 1 0)); ("lines", JStr "junk");
                       ("end", JFloat (fl 2 0))]
                      (JFloat (fl 1 0)) (JFloat (fl 2 0)) eq_refl eq_refl)) _).
  reflexivity.
Defined.

Lemma nested_missing_times_default_to_zero_witness :
  fragment_times healthy 0 (JObj [("lines", JArr [JObj []])])
  = Ok (float_zero, float_zero).
Proof.
  refine (proj2 (proj2 (nested_missing_times_default_to_zero healthy 0
                          [("lines", JArr [JObj []])] [] [] [JObj []]
                          (or_introl eq_refl) eq_refl eq_refl eq_refl))
            eq_refl eq_refl).
Defined.

Lemma nested_times_ignore_middle_witness :
  fragment_times healthy 0
    (JObj [("lines", JArr [direct (fl 1 0) (fl 2 0); JNull; direct (fl 3 0) (fl 4 0)])])
  = fragment_times healthy 0
      (JObj [("lines", JArr [direct (fl 1 0) (fl 2 0); direct (fl 3 0) (fl 4 0)])]).
Proof.
  refine (proj1 (nested_times_ignore_middle healthy 0
                   [("lines", JArr [direct (fl 1 0) (fl 2 0); JNull;
                                    direct (fl 3 0) (fl 4 0)])]
                   (direct (fl 1 0) (fl 2 0)) (direct (fl 3 0) (fl 4 0))
                   [JNull] [] (or_introl eq_refl)) eq_refl).
Defined.

Lemma cleanup_removes_only_request_files_witness :
  ∃ st' removed,
    align_lyrics broken_converter two_lines_request st0
    = (Raise (HTTPException 500 "Audio conversion failed: boom"), st') ∧
    removed = ["/tmp/audio_u1"] ∧
    st_files st' = ∅.
Proof.
  destruct (cleanup_removes_only_request_files broken_converter two_lines_request st0
              (try_except (align_body broken_converter two_lines_request)
                 align_handler st0).2
              (Raise (HTTPException 500 "Audio conversion failed: boom")))
    as (st' & removed & Hrun & _).
  - vm_compute. reflexivity.
  - discriminate.
  - exists st', ["/tmp/audio_u1"]. split_and!; [exact Hrun|reflexivity|].
    assert (st' = (align_lyrics broken_converter two_lines_request st0).2) as ->
      by (by rewrite Hrun).
    vm_compute. reflexivity.
Defined.

Lemma failed_fetch_spawns_nothing_witness :
  ∃ st',
    align_lyrics fetch_breaks_off two_lines_request st0
    = (Raise (HTTPException 400 "Failed to download audio: retrieval incomplete"), st') ∧
    filter is_spawn (st_log st') = [].
Proof.
  destruct (failed_fetch_spawns_nothing fetch_breaks_off two_lines_request st0
              "retrieval incomplete" (Some "mp") eq_refl) as (st' & Hrun & Hlog & _).
  exists st'. split; [exact Hrun|exact Hlog].
Defined.

Lemma untranslated_faults_are_unexpected_500_witness :
  ∃ st',
    align_lyrics converter_denied two_lines_request st0
    = (Raise (HTTPException 500
                "Unexpected error: [Errno 13] Permission denied: 'ffmpeg'"), st').
Proof.
  destruct (untranslated_faults_are_unexpected_500 converter_denied two_lines_request
              st0) as (Hspawn & _).
  eapply Hspawn; vm_compute; reflexivity.
Defined.

Lemma stage_success_means_exit_zero_witness :
  ∃ p, spawn healthy (ffmpeg_cmd "/tmp/audio_u1" "/tmp/converted_u1.wav") ∅ = Spawned p ∧
       returncode (completed p) = 0.
Proof.
  destruct (stage_success_means_exit_zero healthy st0
              (convert_audio_to_wav healthy "/tmp/audio_u1" "/tmp/converted_u1.wav"
                 st0).2
              "/tmp/audio_u1" "" "/tmp/converted_u1.wav") as [Hconv _].
  destruct Hconv as (p & d & Hrun & _ & Hrc & _); [vm_compute; reflexivity|].
  exists p. split; [exact Hrun|exact Hrc].
Defined.

Lemma undecodable_output_is_500_witness :
  ∃ st',
    align_lyrics garbage_out two_lines_request st0
    = (Raise (HTTPException 500
                "Failed to parse Aeneas output: Expecting value: line 1 column 1 (char 0)"),
       st').
Proof.
  eapply (undecodable_output_is_500 garbage_out two_lines_request st0 _ _ _ _
            (PyExc OtherException "Expecting value: line 1 column 1 (char 0)"));
    vm_compute; reflexivity.
Defined.

Lemma probe_oserror_aborts_preflight_witness :
  ∃ st',
    check_dependencies speech_tool_denied st0
    = (Raise (PyExc OSError "[Errno 13] Permission denied: 'espeak-ng'"), st') ∧
    filter is_print (st_log st') = [].
Proof.
  destruct (probe_oserror_aborts_preflight speech_tool_denied st0
              "[Errno 13] Permission denied: 'espeak-ng'") as [_ Hsecond].
  destruct Hsecond as (st' & Hrun & Hlog).
  - intros m. vm_compute. discriminate.
  - vm_compute. reflexivity.
  - exists st'. split; [exact Hrun|exact Hlog].
Defined.

(** ** The endpoint as a whole *)

Section Endpoint.
Context (E : Env).

(** X19. [POST /align] answers 200, 400, 422 or 500 and nothing else (or
    never answers).  It answers 422 exactly when no request could be built
    from the body, and it answers 400 only when the audio could not be
    fetched. *)
Theorem post_align_status_classes (url : string) (v : json) (st : state) :
  match (post_align E url v st).1 with
  | None | Some (Response200 _) => True
  | Some (ResponseError code _) =>
      (code = 422 ∧ ∃ e, new_AlignmentRequest E url v = Err e) ∨
      (code = 400 ∧ ∃ msg part, urlretrieve E url = FetchFailed msg part) ∨
      code = 500
  end ∧
  ((∃ e, new_AlignmentRequest E url v = Err e) →
   ∃ detail, post_align E url v st = (Some (ResponseError 422 detail), st)).
Proof.
  unfold post_align.
  destruct (new_AlignmentRequest E url v) as [request|e] eqn:Hreq.
  2:{ split; [cbn; by eauto|]. eauto. }
  split; [|intros [e He]; discriminate].
  apply new_AlignmentRequest_Ok in Hreq as (Hurl & _ & Hne & _).
  pose proof (align_lyrics_outcome E request st) as Hout.
  destruct (align_lyrics E request st) as [[results|e|] st'] eqn:Hrun; cbn in Hout;
    [done| |done].
  unfold try_except in Hout.
  destruct (align_body E request st) as [[r|e'|] s] eqn:Hbody; cbn in Hout;
    [done| |done].
  apply align_body_Raise in Hbody as [Hint | (detail & -> & [Hfetch | Hnil])].
  - destruct e'; cbn in Hout; injection Hout as ->; cbn in *; auto.
  - cbn in Hout. injection Hout as ->. cbn. rewrite <- Hurl. auto.
  - done.
Qed.

(** X20. A request can wait for ever only in the download or inside a child
    process: when the download does not stall and every process that gets
    started exits at some time, the handler comes to an end; when the
    download stalls, the handler never ends and no process is started. *)
Theorem align_lyrics_waits_only_on_fetch_or_child (request : AlignmentRequest)
    (st : state) :
  ((∀ part, urlretrieve E (audio_url request) ≠ FetchStalls part) →
   (∀ cmd fs p, spawn E cmd fs = Spawned p → is_Some (duration p)) →
   (align_lyrics E request st).1 ≠ Hang) ∧
  (∀ part, urlretrieve E (audio_url request) = FetchStalls part →
   ∃ st', align_lyrics E request st = (Hang, st') ∧
          filter is_spawn (st_log st') = filter is_spawn (st_log st)).
Proof.
  split.
  - intros Hfetch Hexit. rewrite align_lyrics_outcome.
    assert (Hrun : ∀ cmd check s, (subprocess_run E cmd check None s).1 ≠ Hang).
    { intros cmd check s. unfold subprocess_run.
      destruct (spawn E cmd (st_files (add_event (EvSpawn cmd None) s)))
        as [msg|msg|p] eqn:Hspawn; [done..|].
      apply Hexit in Hspawn as [d Hd]. cbn [expired]. rewrite Hd.
      by destruct (check && negb (Z.eqb (returncode (completed p)) 0)). }
    assert (Hconv : ∀ inp out s, (convert_audio_to_wav E inp out s).1 ≠ Hang).
    { intros inp out s. unfold convert_audio_to_wav, try_except, bind.
      pose proof (Hrun (ffmpeg_cmd inp out) true s) as H.
      destruct (subprocess_run E (ffmpeg_cmd inp out) true None s) as [[r|e|] s'];
        [done| |done].
      destruct e as [| | |[] ?]; done. }
    assert (Halign : ∀ a t o s, (run_aeneas_alignment E a t o s).1 ≠ Hang).
    { intros a t o s. unfold run_aeneas_alignment, try_except, bind.
      pose proof (Hrun (aeneas_cmd E a t o) true s) as H.
      destruct (subprocess_run E (aeneas_cmd E a t o) true None s) as [[r|e|] s'];
        [done| |done].
      destruct e as [| | |[] ?]; done. }
    unfold try_except, align_body, bind.
    destruct (download_audio E (audio_url request) (downloaded_audio E) st)
      as [[[]|e1|] s1] eqn:H1.
    2:{ by destruct e1. }
    2:{ unfold download_audio, try_except, urlretrieve_to in H1.
        destruct (urlretrieve E (audio_url request)) as [? [?|]|part|?] eqn:Hu;
          [done..|by destruct (Hfetch part)|done]. }
    pose proof (Hconv (downloaded_audio E) (converted_audio E) s1) as H2.
    destruct (convert_audio_to_wav E (downloaded_audio E) (converted_audio E) s1)
      as [[[]|e2|] s2]; [|by destruct e2|done].
    destruct (write_lyrics_file E (lyrics request) (lyrics_file E) s2)
      as [[[]|e3|] s3] eqn:H3.
    2:{ by destruct e3. }
    2:{ unfold write_lyrics_file in H3. case_bool_decide; [done|].
        by destruct (open_w_error E (lyrics_file E)). }
    pose proof (Halign (converted_audio E) (lyrics_file E) (alignment_output E) s3)
      as H4.
    destruct (run_aeneas_alignment E (converted_audio E) (lyrics_file E)
                (alignment_output E) s3) as [[[]|e4|] s4]; [|by destruct e4|done].
    destruct (parse_aeneas_output E (st_files s4) (alignment_output E)
                (lyrics request)) as [results|e5]; cbn; [done|by destruct e5].
  - intros part Hstall.
    unfold align_lyrics, try_finally, try_except, align_body, bind, download_audio,
      try_except, urlretrieve_to.
    rewrite Hstall. destruct part as [content|]; eexists; (split; [done|]);
      cbn [st_log add_event set_files]; by rewrite filter_app, app_nil_r.
Qed.

End Endpoint.

Lemma align_lyrics_waits_only_on_fetch_or_child_witness :
  (align_lyrics healthy two_lines_request st0).1 ≠ Hang.
Proof.
  apply (proj1 (align_lyrics_waits_only_on_fetch_or_child healthy two_lines_request
                  st0)).
  - intros part. discriminate.
  - intros cmd fs p Hspawn. unfold healthy, world in Hspawn. cbn [spawn] in Hspawn.
    unfold tools_ok, exits in Hspawn.
    repeat (match type of Hspawn with
            | context [match ?x with _ => _ end] => destruct x
            end); injection Hspawn as <-; by eexists.
Defined.

(** ** The validator and line breaks other than the newline *)


(** ** The preflight and a probe that may not be executed *)

(** C9, counterexample. The converter is missing and the speech tool may
    not be executed: the fault of the first probe is collected, but the
    second probe ends the preflight with its [OSError]; no report is
    printed and the collected fault is lost. *)
Lemma denied_probe_counterexample :
  probe_fault "ffmpeg" (ffmpeg_probe speech_tool_denied st0)
  = Some "ffmpeg not found. Install with: brew install ffmpeg (macOS) or apt-get install ffmpeg (Linux)" ∧
  startup_event speech_tool_denied st0
  = (Raise (PyExc OSError "[Errno 13] Permission denied: 'espeak-ng'"),
     {| st_files := ∅;
        st_log := [EvSpawn ["ffmpeg"; "-version"] (Some 5%nat);
                   EvSpawn ["espeak-ng"; "--version"] (Some 5%nat)] |}).
Proof. split; vm_compute; reflexivity. Qed.

Lemma preflight_collects_every_fault_witness :
  preflight_faults nothing_installed st0
  = ["ffmpeg not found. Install with: brew install ffmpeg (macOS) or apt-get install ffmpeg (Linux)";
     "espeak-ng check timed out";
     "aeneas Python module not found. Install with: pip3 install aeneas. Error: No module named 'aeneas'"] ∧
  (∃ st', startup_event nothing_installed st0
          = (Raise (PyExc RuntimeError
                      "Missing required dependencies. See error messages above."), st')) ∧
  (∃ st', startup_event speech_tool_denied st0
          = (Raise (PyExc OSError "[Errno 13] Permission denied: 'espeak-ng'"), st')).
Proof.
  split_and!; [vm_compute; reflexivity| |].
  - destruct (proj1 (preflight_collects_every_fault nothing_installed st0))
      as (st' & Hrun & _).
    + intros msg. vm_compute. discriminate.
    + intros msg. vm_compute. discriminate.
    + exists st'. exact Hrun.
  - destruct (proj2 (preflight_collects_every_fault speech_tool_denied st0)
                "[Errno 13] Permission denied: 'espeak-ng'") as (st' & Hrun & _).
    + right. split; [intros m; vm_compute; discriminate|vm_compute; reflexivity].
    + exists st'. exact Hrun.
Defined.
